(** * gpython: the Dict type, Function objects and the eval/exec builtins

    A shallow embedding of [py/dict.go], [py/function.go] and
    [vm/builtin.go].  Go values of interface type [py.Object] become an
    inductive type; maps, code objects and function objects are reference
    values and live in an explicit store, so that the aliasing the program
    relies on (a namespace shared by every holder, mutated in place) is
    visible in the statements. *)

From Stdlib Require Import ZArith String Ascii List.
From stdpp Require Import base option countable gmap fin_maps list strings pretty.

Open Scope string_scope.

(** ** Values *)

(** Addresses of heap objects (Go pointers and map references). *)
Abbreviation loc := positive.

(** A value of interface type [py.Object]: the nil interface, or a value
    of one of the dynamic types the three files handle.  [Code], [Function]
    and [Dict] values are references; [Int] is Go's [int64] and is never
    computed with here. *)
Inductive Object : Type :=
  | Nil                                (* the nil interface value *)
  | None_                              (* py.None *)
  | NotImplemented                     (* py.NotImplemented *)
  | Bool (b : bool)                    (* py.True / py.False *)
  | String (s : string)                (* py.String *)
  | Bytes (bs : list ascii)            (* py.Bytes, a byte slice *)
  | Int (z : Z)                        (* py.Int *)
  | CodeRef (p : loc)                  (* *py.Code *)
  | FunctionRef (p : loc)              (* *py.Function *)
  | DictRef (p : loc).                 (* py.Dict, a Go map *)

Abbreviation True_ := (Bool true).
Abbreviation False_ := (Bool false).

#[global] Instance Object_eq_dec : EqDecision Object.
Proof. solve_decision. Defined.

Definition Object_code : Type :=
  bool + (bool + (string + (list ascii + (Z + (loc + (loc + loc)))))).

Definition Object_encode (o : Object) : Object_code + unit :=
  match o with
  | Nil => inr tt
  | None_ => inl (inl true)
  | NotImplemented => inl (inl false)
  | Bool b => inl (inr (inl b))
  | String s => inl (inr (inr (inl s)))
  | Bytes bs => inl (inr (inr (inr (inl bs))))
  | Int z => inl (inr (inr (inr (inr (inl z)))))
  | CodeRef p => inl (inr (inr (inr (inr (inr (inl p))))))
  | FunctionRef p => inl (inr (inr (inr (inr (inr (inr (inl p)))))))
  | DictRef p => inl (inr (inr (inr (inr (inr (inr (inr p)))))))
  end.

Definition Object_decode (x : Object_code + unit) : Object :=
  match x with
  | inr _ => Nil
  | inl (inl true) => None_
  | inl (inl false) => NotImplemented
  | inl (inr (inl b)) => Bool b
  | inl (inr (inr (inl s))) => String s
  | inl (inr (inr (inr (inl bs)))) => Bytes bs
  | inl (inr (inr (inr (inr (inl z))))) => Int z
  | inl (inr (inr (inr (inr (inr (inl p)))))) => CodeRef p
  | inl (inr (inr (inr (inr (inr (inr (inl p))))))) => FunctionRef p
  | inl (inr (inr (inr (inr (inr (inr (inr p))))))) => DictRef p
  end.

#[global] Instance Object_countable : Countable Object.
Proof.
  apply (inj_countable' Object_encode Object_decode).
  intros []; reflexivity.
Defined.

(** A [py.Tuple] is a Go slice of objects; [len], [range] and indexing do
    not tell a nil slice from an empty one, both are the empty list. *)
Definition Tuple := list Object.

(** A [py.Dict] value is a reference to the map's storage. *)
Abbreviation Dict := loc.

(** Go's [x.(String)]: the type assertion with its [ok] flag. *)
Definition as_String (o : Object) : option string :=
  match o with String s => Some s | _ => None end.

Definition as_Dict (o : Object) : option Dict :=
  match o with DictRef d => Some d | _ => None end.

Definition as_Code (o : Object) : option loc :=
  match o with CodeRef p => Some p | _ => None end.

Definition as_Function (o : Object) : option loc :=
  match o with FunctionRef p => Some p | _ => None end.

(** Go panics when a value of an unhashable dynamic type (a slice or a
    map) is used as a map key. *)
Definition hashable (o : Object) : bool :=
  match o with
  | Bytes _ | DictRef _ => false
  | _ => true
  end.

(** ** Exceptions and results *)

Inductive ExceptionType : Type :=
  | TypeError
  | KeyError
  | ValueError
  | OtherError (name : string).

Inductive FmtArg : Type :=
  | FStr (s : string)
  | FInt (z : Z)
  | FObj (o : Object).

(** [ExceptionNewf(kind, format, args...)]: the arguments are kept next to
    the format, [exc_message] below renders them. *)
Record Exception : Type := ExceptionNewf
  { exc_type : ExceptionType;
    exc_format : string;
    exc_args : list FmtArg }.

(** Go's [fmt.Sprintf] for the verbs the three files use: [%s], [%d] and
    [%v]; [show] renders an object under [%v]. *)
Definition fmt_arg (show : Object -> string) (a : FmtArg) : string :=
  match a with
  | FStr s => s
  | FInt z => pretty z
  | FObj o => show o
  end.

Fixpoint Sprintf (show : Object -> string) (format : string)
    (args : list FmtArg) : string :=
  match format with
  | EmptyString => EmptyString
  | String.String "%"%char (String.String v rest) =>
      if (Ascii.eqb v "s" || Ascii.eqb v "d" || Ascii.eqb v "v")%bool then
        match args with
        | a :: args' => fmt_arg show a ++ Sprintf show rest args'
        | [] => "%!" ++ String.String v ("(MISSING)" ++ Sprintf show rest [])
        end
      else String.String "%"%char (String.String v (Sprintf show rest args))
  | String.String c rest => String.String c (Sprintf show rest args)
  end.

Definition exc_message (show : Object -> string) (e : Exception) : string :=
  Sprintf show (exc_format e) (exc_args e).

(** The outcome of a Go call that returns [(T, error)]: a value, a Python
    exception, or a Go run-time panic. *)
Inductive result (A : Type) : Type :=
  | Ok (a : A)
  | Raise (e : Exception)
  | Panic.

Arguments Ok {A} a.
Arguments Raise {A} e.
Arguments Panic {A}.

(** ** Code and Function objects *)

Module Code.
(** Modelled from the spec: the declaration of the compiled unit
    ([type Code struct] in [py/code.go]) is not among the three files;
    these are the fields they read: the unit's name, its constants and
    its free-variable names. *)
Record t : Type := mk
  { Name : string;
    Consts : Tuple;
    Freevars : Tuple }.

(** Modelled from the spec: the method [GetNumFree] is declared next to
    [Code]; the spec calls it the unit's free-variable count. *)
Definition GetNumFree (co : t) : nat := length (Freevars co).
End Code.

Module Function.
Local Abbreviation DictT := Dict.

(** [type Function struct]; a NULL map is [None]. *)
Record t : Type := mk
  { Code : loc;
    Globals : DictT;
    Defaults : Tuple;
    KwDefaults : option DictT;
    Closure : Tuple;
    Doc : Object;
    Name : string;
    Dict : DictT;
    Weakreflist : list Object;
    Module_ : Object;
    Annotations : option DictT;
    Qualname : string }.

Definition set_Code (f : t) (code : loc) : t :=
  mk code (Globals f) (Defaults f) (KwDefaults f) (Closure f) (Doc f)
     (Name f) (Dict f) (Weakreflist f) (Module_ f) (Annotations f)
     (Qualname f).
End Function.

(** ** The store *)

(** [dicts] holds the storage of every map made with [make], [codes] and
    [functions] the objects behind [*Code] and [*Function] pointers.  A
    [Dict] with no storage reads as Go's nil map. *)
Record Heap : Type := mkHeap
  { dicts : gmap loc (gmap Object Object);
    codes : gmap loc Code.t;
    functions : gmap loc Function.t }.

Definition set_dicts (h : Heap) (ds : gmap loc (gmap Object Object)) : Heap :=
  mkHeap ds (codes h) (functions h).

Definition set_codes (h : Heap) (cs : gmap loc Code.t) : Heap :=
  mkHeap (dicts h) cs (functions h).

Definition set_functions (h : Heap) (fs : gmap loc Function.t) : Heap :=
  mkHeap (dicts h) (codes h) fs.

(** Calls that may write to the store thread it; it is returned on a
    failure too, nothing is rolled back. *)
Definition M (A : Type) : Type := Heap -> result A * Heap.

Definition ret {A} (a : A) : M A := fun h => (Ok a, h).

Definition raise {A} (e : Exception) : M A := fun h => (Raise e, h).

Definition panic {A} : M A := fun h => (Panic, h).

Definition bind {A B} (m : M A) (k : A -> M B) : M B :=
  fun h =>
    match m h with
    | (Ok a, h') => k a h'
    | (Raise e, h') => (Raise e, h')
    | (Panic, h') => (Panic, h')
    end.

(** A call that only reads the store. *)
Definition reading {A} (f : Heap -> result A) : M A := fun h => (f h, h).

#[global] Instance M_ret : MRet M := @ret.
#[global] Instance M_bind : MBind M := fun A B k m => bind m k.

(** ** Go's map primitives *)

(** The entries of [d]; a nil map has none. *)
Definition contents (h : Heap) (d : Dict) : gmap Object Object :=
  default ∅ (dicts h !! d).

(** [len(d)]. *)
Definition map_len (h : Heap) (d : Dict) : nat := size (contents h d).

(** [v, ok := d[k]]. *)
Definition map_index (h : Heap) (d : Dict) (k : Object) : result (option Object) :=
  if hashable k then Ok (contents h d !! k) else Panic.

(** [d[k] = v]; assignment to an entry of a nil map panics. *)
Definition map_assign (d : Dict) (k v : Object) : M unit :=
  fun h =>
    if hashable k then
      match dicts h !! d with
      | Some m => (Ok tt, set_dicts h (<[d := <[k := v]> m]> (dicts h)))
      | None => (Panic, h)
      end
    else (Panic, h).

(** [delete(d, k)]; a no-op on a nil map. *)
Definition map_delete (d : Dict) (k : Object) : M unit :=
  fun h =>
    if hashable k then
      match dicts h !! d with
      | Some m => (Ok tt, set_dicts h (<[d := delete k m]> (dicts h)))
      | None => (Ok tt, h)
      end
    else (Panic, h).

(** [make(Dict)] and [make(Dict, n)]: new, empty storage. *)
Definition make_Dict : M Dict :=
  fun h =>
    let d := fresh (dom (dicts h)) in
    (Ok d, set_dicts h (<[d := ∅]> (dicts h))).

(** The sequences a [for k, v := range d] loop may run through: the
    entries of [d] in any order. *)
Definition range_of (h : Heap) (d : Dict) (items : list (Object * Object)) : Prop :=
  items ≡ₚ map_to_list (contents h d).

(** The store is well formed when every key in a map is hashable: Go
    admits no other. *)
Definition wf_heap (h : Heap) : Prop :=
  map_Forall (fun _ m => map_Forall (fun k _ => hashable k = true) m) (dicts h).

(** ** py/dict.go *)

Definition expectingDict : Exception :=
  ExceptionNewf TypeError "a dict is required" [].

Definition NewDict : M Dict := make_Dict.

Definition NewDictSized (n : Z) : M Dict := make_Dict.

Definition DictCheckExact (obj : Object) : result Dict :=
  match as_Dict obj with
  | Some dict => Ok dict
  | None => Raise expectingDict
  end.

Definition DictCheck (obj : Object) : result Dict := DictCheckExact obj.

(** The body of the [range] loop of [Copy], over the entries still to
    come. *)
Fixpoint Copy_loop (e : Dict) (items : list (Object * Object)) : M unit :=
  match items with
  | [] => mret tt
  | (k, v) :: rest => _ ← map_assign e k v; Copy_loop e rest
  end.

(** [d.Copy()], where the loop runs through [items]. *)
Definition Copy (items : list (Object * Object)) (d : Dict) : M Dict :=
  e ← make_Dict;
  _ ← Copy_loop e items;
  mret e.

Definition M__getitem__ (d : Dict) (key : Object) (h : Heap) : result Object :=
  let missing := Raise (ExceptionNewf KeyError "%v" [FObj key]) in
  match as_String key with
  | Some str =>
      match map_index h d (String str) with
      | Ok (Some res) => Ok res
      | Ok None => missing
      | Raise e => Raise e
      | Panic => Panic
      end
  | None => missing
  end.

Definition M__setitem__ (d : Dict) (key value : Object) : M Object :=
  _ ← map_assign d key value;
  mret None_.

Definition M__contains__ (a : Dict) (other : Object) (h : Heap) : result Object :=
  match as_String other with
  | None =>
      (* [key] is the zero String here, the assertion having failed *)
      Raise (ExceptionNewf KeyError "FIXME can only have string keys!: %v"
               [FObj (String "")])
  | Some key =>
      match map_index h a (String key) with
      | Ok (Some _) => Ok True_
      | Ok None => Ok False_
      | Raise e => Raise e
      | Panic => Panic
      end
  end.

Section Equality.
(** [py.Eq], the generic equality dispatch of [py/arithmetic.go]; it is
    not among the three files. *)
Variable Eq : Object -> Object -> Heap -> result Object.

(** The [range] loop of [M__eq__], over the entries of [a] still to
    come. *)
Fixpoint M__eq___loop (b : Dict) (items : list (Object * Object)) (h : Heap) :
    result Object :=
  match items with
  | [] => Ok True_
  | (k, av) :: rest =>
      match map_index h b k with
      | Ok None => Ok False_
      | Ok (Some bv) =>
          match Eq av bv h with
          | Raise e => Raise e
          | Panic => Panic
          | Ok res =>
              if decide (res = False_) then Ok False_
              else M__eq___loop b rest h
          end
      | Raise e => Raise e
      | Panic => Panic
      end
  end.

(** [a.M__eq__(other)], where the loop runs through [items]. *)
Definition M__eq__ (items : list (Object * Object)) (a : Dict) (other : Object)
    (h : Heap) : result Object :=
  match as_Dict other with
  | None => Ok NotImplemented
  | Some b =>
      if decide (map_len h a ≠ map_len h b) then Ok False_
      else M__eq___loop b items h
  end.

Definition M__ne__ (items : list (Object * Object)) (a : Dict) (other : Object)
    (h : Heap) : result Object :=
  match M__eq__ items a other h with
  | Raise e => Raise e
  | Panic => Panic
  | Ok res =>
      if decide (res = NotImplemented) then Ok res
      else if decide (res = True_) then Ok False_
      else Ok True_
  end.
End Equality.

(** ** py/function.go *)

(** [&Function{...}]: a new function object. *)
Definition new_Function (f : Function.t) : M loc :=
  fun h =>
    let p := fresh (dom (functions h)) in
    (Ok p, set_functions h (<[p := f]> (functions h))).

(** Reading through a [*Code] or [*Function] pointer; a pointer to
    nothing panics. *)
Definition deref_Code (p : loc) (h : Heap) : result Code.t :=
  match codes h !! p with
  | Some co => Ok co
  | None => Panic
  end.

Definition deref_Function (p : loc) (h : Heap) : result Function.t :=
  match functions h !! p with
  | Some f => Ok f
  | None => Panic
  end.

Definition NewFunction (code : loc) (globals : Dict) (qualname : string) : M loc :=
  co ← reading (deref_Code code);
  let doc :=
    match Code.Consts co with
    | c0 :: _ => match as_String c0 with Some _ => c0 | None => None_ end
    | [] => None_
    end in
  lookup ← reading (fun h => map_index h globals (String "__name__"));
  let module := match lookup with Some moduleobj => moduleobj | None => None_ end in
  let qualname := if String.eqb qualname "" then Code.Name co else qualname in
  dict ← make_Dict;
  new_Function
    {| Function.Code := code;
       Function.Qualname := qualname;
       Function.Globals := globals;
       Function.Name := Code.Name co;
       Function.Doc := doc;
       Function.Module_ := module;
       Function.Dict := dict;
       Function.Defaults := [];
       Function.KwDefaults := None;
       Function.Closure := [];
       Function.Weakreflist := [];
       Function.Annotations := None |}.

(** The getter and the setter of the [__code__] property.  The assertion
    of [self] to a function pointer has no [ok] flag: on anything but a
    function it panics. *)
Definition code_Fget (self : Object) (h : Heap) : result Object :=
  match as_Function self with
  | None => Panic
  | Some fp =>
      match deref_Function fp h with
      | Ok f => Ok (CodeRef (Function.Code f))
      | Raise e => Raise e
      | Panic => Panic
      end
  end.

Definition code_Fset (self value : Object) : M unit :=
  match as_Function self with
  | None => panic
  | Some fp =>
      match as_Code value with
      | None =>
          raise (ExceptionNewf TypeError "__code__ must be set to a code object" [])
      | Some cp =>
          code ← reading (deref_Code cp);
          f ← reading (deref_Function fp);
          let nfree := length (Code.Freevars code) in
          let nclosure := length (Function.Closure f) in
          if decide (nfree ≠ nclosure) then
            raise (ExceptionNewf ValueError
                     "%s() requires a code object with %d free vars, not %d"
                     [FStr (Function.Name f); FInt (Z.of_nat nclosure);
                      FInt (Z.of_nat nfree)])
          else
            fun h =>
              (Ok tt, set_functions h (<[fp := Function.set_Code f cp]> (functions h)))
      end
  end.

(** ** vm/builtin.go *)

(** [strings.TrimLeft(s, cutset)] for a cutset of ASCII characters. *)
Fixpoint in_cutset (c : ascii) (cutset : string) : bool :=
  match cutset with
  | EmptyString => false
  | String.String x rest => (Ascii.eqb c x || in_cutset c rest)%bool
  end.

Fixpoint TrimLeft (s cutset : string) : string :=
  match s with
  | EmptyString => EmptyString
  | String.String c rest => if in_cutset c cutset then TrimLeft rest cutset else s
  end.

(** The cutset of the dispatcher: a blank and a tab (character 9). *)
Definition blank_or_tab : string :=
  String.String " "%char (String.String "009"%char EmptyString).

Section EvalOrExec.
(** The collaborators of the dispatcher that are not among the three
    files: [py.UnpackTuple] (it is handed the current values of the
    variables its pointers address and returns their new values),
    [py.Compile] and [vm.EvalCode]. *)
Variable UnpackTuple :
  Tuple -> Dict -> string -> Z -> Z -> list Object -> Heap -> result (list Object).
Variable Compile : string -> string -> string -> Z -> bool -> M Object.
Variable EvalCode : loc -> Dict -> Dict -> M Object.

Definition builtinEvalOrExec (self : Object) (args : Tuple)
    (kwargs currentLocals currentGlobals builtins : Dict) (mode : string) :
    M Object :=
  slots ← reading (UnpackTuple args kwargs mode 1 3 [Nil; None_; None_]);
  match slots return M Object with
  | [cmd; globals; locals] =>
      let '(globals, locals) :=
        if decide (globals = None_) then
          (DictRef currentGlobals,
           if decide (locals = None_) then DictRef currentLocals else locals)
        else if decide (locals = None_) then (globals, globals)
        else (globals, locals) in
      match DictCheck globals return M Object with
      | Ok globalsDict =>
          match DictCheck locals with
          | Ok localsDict =>
              found ← reading (fun h => map_index h globalsDict (String "__builtins__"));
              _ ← (if found is None
                   then map_assign globalsDict (String "__builtins__") (DictRef builtins)
                   else mret tt);
              unit ←
                match cmd return M (option loc * string) with
                | CodeRef x => mret (Some x, "")
                | String x => mret (None, x)
                | Bytes x => mret (None, string_of_list_ascii x)
                | _ =>
                    raise (ExceptionNewf TypeError
                             "%s() arg 1 must be a string, bytes or code object"
                             [FStr mode])
                end;
              code ←
                match unit return M loc with
                | (Some code, _) => mret code
                | (None, codeStr) =>
                    obj ← Compile (TrimLeft codeStr blank_or_tab) "<string>" mode 0 true;
                    match as_Code obj return M loc with
                    | Some code => mret code
                    | None => panic
                    end
                end;
              co ← reading (deref_Code code);
              if decide (0 < Code.GetNumFree co) then
                raise (ExceptionNewf TypeError
                         "code passed to %s() may not contain free variables"
                         [FStr mode])
              else EvalCode code globalsDict localsDict
          | _ => raise (ExceptionNewf TypeError "locals must be a dict" [])
          end
      | _ => raise (ExceptionNewf TypeError "globals must be a dict" [])
      end
  | _ => panic
  end.

Definition builtinEval (self : Object) (args : Tuple)
    (kwargs currentLocals currentGlobals builtins : Dict) : M Object :=
  builtinEvalOrExec self args kwargs currentLocals currentGlobals builtins "eval".

Definition builtinExec (self : Object) (args : Tuple)
    (kwargs currentLocals currentGlobals builtins : Dict) : M Object :=
  _ ← builtinEvalOrExec self args kwargs currentLocals currentGlobals builtins "exec";
  mret None_.
End EvalOrExec.

(** ** Vocabulary of the statements *)

(** One step of the loop of [Copy] on the entries of the new map. *)
Definition store_entry (m : gmap Object Object) (kv : Object * Object) :
    gmap Object Object :=
  <[kv.1 := kv.2]> m.

(** A later change to a map: a key is added (or overwritten) through
    [M__setitem__], or removed with Go's [delete]. *)
Inductive mutation : Type :=
  | Add (k v : Object)
  | Remove (k : Object).

Definition mutate (d : Dict) (mu : mutation) : M unit :=
  match mu with
  | Add k v => _ ← M__setitem__ d k v; mret tt
  | Remove k => map_delete d k
  end.

(** The store after a sequence of changes to [d], whatever each one
    returned. *)
Fixpoint mutate_all (d : Dict) (mus : list mutation) (h : Heap) : Heap :=
  match mus with
  | [] => h
  | mu :: rest => mutate_all d rest (mutate d mu h).2
  end.

(** Stores and collaborators to run the definitions on. *)
Module Samples.
(** Map 1 holds a textual and a numeric key, map 2 is empty, map 3 holds
    a name for a module; code 1 is closed, code 2 has a free variable;
    function 1 runs code 1 and has no closure. *)
Definition heap0 : Heap :=
  {| dicts :=
       {[ 1%positive := {[ String "a" := Int 1; Int 2 := DictRef 2%positive ]};
          2%positive := ∅;
          3%positive := {[ String "__name__" := String "mymod" ]} ]};
     codes :=
       {[ 1%positive := Code.mk "foo" [String "doc of foo"; Int 0] [];
          2%positive := Code.mk "inner" [Int 0] [String "x"] ]};
     functions :=
     {[ 1%positive :=
          {| Function.Code := 1%positive; Function.Globals := 3%positive;
             Function.Defaults := []; Function.KwDefaults := None;
             Function.Closure := []; Function.Doc := String "doc of foo";
             Function.Name := "foo"; Function.Dict := 2%positive;
             Function.Weakreflist := []; Function.Module_ := String "mymod";
             Function.Annotations := None; Function.Qualname := "foo" |} ]} |}.
End Samples.

(** Two values compare equal under the equality dispatch [Eq] when it
    answers [True]. *)
Definition compare_equal (Eq : Object -> Object -> Heap -> result Object)
    (h : Heap) (av bv : Object) : Prop :=
  Eq av bv h = Ok True_.

Module SampleEq.
(** An equality dispatch to run [M__eq__] with: two values are equal
    when they are the same value. *)
Definition Eq (a b : Object) (h : Heap) : result Object :=
  Ok (Bool (bool_decide (a = b))).
End SampleEq.

(** The key under which a namespace holds the builtins. *)
Definition builtins_key : Object := String "__builtins__".

(** The namespaces of an eval/exec call, from the values [g] and [l] left
    in the variables [globals] and [locals] by the unpacking ([None] when
    the argument is absent): without globals the caller's current globals,
    with the caller's current locals unless locals are given; with globals
    only, the globals for both; with both, both as given. *)
Inductive namespaces_for (currentGlobals currentLocals : Dict) :
    Object -> Object -> Dict -> Dict -> Prop :=
  | ns_current :
      namespaces_for currentGlobals currentLocals None_ None_
        currentGlobals currentLocals
  | ns_locals_given (L : Dict) :
      namespaces_for currentGlobals currentLocals None_ (DictRef L)
        currentGlobals L
  | ns_globals_given (G : Dict) :
      namespaces_for currentGlobals currentLocals (DictRef G) None_ G G
  | ns_both_given (G L : Dict) :
      namespaces_for currentGlobals currentLocals (DictRef G) (DictRef L) G L.

(** The store once the builtins are in the globals [G]: as it was when
    [G] has the key, else with the key added to [G]. *)
Definition inject_builtins (builtins G : Dict) (h : Heap) : Heap :=
  match contents h G !! builtins_key with
  | Some _ => h
  | None =>
      set_dicts h (<[G := <[builtins_key := DictRef builtins]> (contents h G)]> (dicts h))
  end.

(** A source the dispatcher turns down: neither a code unit, nor text,
    nor bytes. *)
Definition invalid_source (cmd : Object) : bool :=
  match cmd with
  | CodeRef _ | String _ | Bytes _ => false
  | _ => true
  end.

Section Resolution.
Variable UnpackTuple :
  Tuple -> Dict -> string -> Z -> Z -> list Object -> Heap -> result (list Object).
Variable Compile : string -> string -> string -> Z -> bool -> M Object.

(** The unit a source resolves to: the source itself when it is a code
    unit; what the compiler returns for the text, or the bytes, stripped
    of leading blanks and tabs, compiled under the name [<string>] in the
    given mode. *)
Inductive resolves (mode : string) : Object -> Heap -> loc -> Heap -> Prop :=
  | resolves_code (p : loc) (h : Heap) :
      resolves mode (CodeRef p) h p h
  | resolves_text (s : string) (h : Heap) (p : loc) (h' : Heap) :
      Compile (TrimLeft s blank_or_tab) "<string>" mode 0 true h = (Ok (CodeRef p), h') ->
      resolves mode (String s) h p h'
  | resolves_bytes (bs : list ascii) (h : Heap) (p : loc) (h' : Heap) :
      Compile (TrimLeft (string_of_list_ascii bs) blank_or_tab) "<string>" mode 0 true h
        = (Ok (CodeRef p), h') ->
      resolves mode (Bytes bs) h p h'.

(** A call settles on the source [cmd] and the namespaces [G] and [L]:
    the unpacking leaves [cmd] and two values that stand for [G] and [L],
    and [G] is a map with storage. *)
Definition settles (args : Tuple) (kwargs currentLocals currentGlobals : Dict)
    (mode : string) (h : Heap) (cmd : Object) (G L : Dict) : Prop :=
  exists g l : Object,
    UnpackTuple args kwargs mode 1 3 [Nil; None_; None_] h = Ok [cmd; g; l] /\
    namespaces_for currentGlobals currentLocals g l G L /\
    is_Some (dicts h !! G).
End Resolution.

(** Collaborators to run the dispatcher with. *)
Module SampleVm.
(** Positional unpacking: between [min] and [max] arguments, stored in
    order into the variables. *)
Definition UnpackTuple (args : Tuple) (kwargs : Dict) (name : string)
    (min max : Z) (results : list Object) (h : Heap) : result (list Object) :=
  let n := Z.of_nat (length args) in
  if (n <? min)%Z then
    Raise (ExceptionNewf TypeError "%s() takes at least %d arguments (%d given)"
             [FStr name; FInt min; FInt n])
  else if (max <? n)%Z then
    Raise (ExceptionNewf TypeError "%s() takes at most %d arguments (%d given)"
             [FStr name; FInt max; FInt n])
  else Ok (args ++ drop (length args) results)%list.

(** A compiler that makes of any text a closed unit whose one constant is
    the text. *)
Definition Compile (source filename mode : string) (flags : Z)
    (interactive : bool) : M Object :=
  fun h =>
    let p := fresh (dom (codes h)) in
    (Ok (CodeRef p), set_codes h (<[p := Code.mk "<module>" [String source] []]> (codes h))).

(** An evaluator that runs every unit as [x = 1]: it binds [x] in the
    locals and answers [1]. *)
Definition EvalCode (code : loc) (globals locals : Dict) : M Object :=
  _ ← map_assign locals (String "x") (Int 1);
  mret (Int 1).
End SampleVm.

(** ** The rest of py/dict.go *)

(** The [get] method of [DictType].  The assertion of [self] to a Dict has
    no [ok] flag, and indexing [args] out of range panics. *)
Definition DictType_get (self : Object) (args : Tuple) (h : Heap) : result Object :=
  let length := Z.of_nat (length args) in
  if decide (length = 0%Z) then
    Raise (ExceptionNewf TypeError "%s expected at least 1 arguments, got %d"
             [FStr "items()"; FInt length])
  else if decide (2 < length)%Z then
    Raise (ExceptionNewf TypeError "%s expected at most 2 arguments, got %d"
             [FStr "items()"; FInt length])
  else
    match as_Dict self with
    | None => Panic
    | Some sMap =>
        match args !! 0%nat with
        | None => Panic
        | Some arg0 =>
            match as_String arg0 with
            | Some str =>
                match map_index h sMap (String str) with
                | Ok (Some res) => Ok res
                | Ok None =>
                    if decide (length = 2%Z) then
                      match args !! 1%nat with
                      | Some arg1 => Ok arg1
                      | None => Panic
                      end
                    else Ok None_
                | Raise e => Raise e
                | Panic => Panic
                end
            | None => Raise (ExceptionNewf KeyError "%v" [FObj arg0])
            end
        end
    end.

Section Representation.
(** [py.ReprAsString], the representation dispatch of [py/internal.go]; it
    is not among the three files. *)
Variable ReprAsString : Object -> Heap -> result string.

(** The [range] loop of [M__repr__] over the entries still to come; [out]
    is what the buffer holds. *)
Fixpoint M__repr___loop (items : list (Object * Object)) (out : string)
    (spacer : bool) (h : Heap) : result string :=
  match items with
  | [] => Ok out
  | (key, value) :: rest =>
      let out := if spacer then out ++ ", " else out in
      match ReprAsString key h with
      | Ok keyStr =>
          match ReprAsString value h with
          | Ok valueStr =>
              M__repr___loop rest (((out ++ keyStr) ++ ": ") ++ valueStr) true h
          | Raise e => Raise e
          | Panic => Panic
          end
      | Raise e => Raise e
      | Panic => Panic
      end
  end.

(** [a.M__repr__()], where the loop runs through [items]. *)
Definition M__repr__ (items : list (Object * Object)) (a : Dict) (h : Heap) :
    result Object :=
  match M__repr___loop items "{" false h with
  | Ok out => Ok (String (out ++ "}"))
  | Raise e => Raise e
  | Panic => Panic
  end.

Definition M__str__ (items : list (Object * Object)) (a : Dict) (h : Heap) :
    result Object :=
  M__repr__ items a h.
End Representation.

(** ** The rest of py/function.go *)

(** [o.String()]. *)
Definition Function_String (o : Function.t) : string :=
  ("function " ++ Function.Name o) ++ "()".

(** [f.GetDict()]. *)
Definition GetDict (f : Function.t) : Dict := Function.Dict f.

Definition set_Name (f : Function.t) (name : string) : Function.t :=
  Function.mk (Function.Code f) (Function.Globals f) (Function.Defaults f)
    (Function.KwDefaults f) (Function.Closure f) (Function.Doc f) name
    (Function.Dict f) (Function.Weakreflist f) (Function.Module_ f)
    (Function.Annotations f) (Function.Qualname f).

Definition set_Qualname (f : Function.t) (qualname : string) : Function.t :=
  Function.mk (Function.Code f) (Function.Globals f) (Function.Defaults f)
    (Function.KwDefaults f) (Function.Closure f) (Function.Doc f) (Function.Name f)
    (Function.Dict f) (Function.Weakreflist f) (Function.Module_ f)
    (Function.Annotations f) qualname.

Definition set_Dict (f : Function.t) (dict : Dict) : Function.t :=
  Function.mk (Function.Code f) (Function.Globals f) (Function.Defaults f)
    (Function.KwDefaults f) (Function.Closure f) (Function.Doc f) (Function.Name f)
    dict (Function.Weakreflist f) (Function.Module_ f)
    (Function.Annotations f) (Function.Qualname f).



(** A write to a field through a [*Function] pointer. *)
Definition update_Function (fp : loc) (change : Function.t -> Function.t) : M unit :=
  fun h =>
    match functions h !! fp with
    | Some f => (Ok tt, set_functions h (<[fp := change f]> (functions h)))
    | None => (Panic, h)
    end.





Definition dict_Fget (self : Object) (h : Heap) : result Object :=
  match as_Function self with
  | None => Panic
  | Some fp =>
      match deref_Function fp h with
      | Ok f => Ok (DictRef (Function.Dict f))
      | Raise e => Raise e
      | Panic => Panic
      end
  end.

Definition dict_Fset (self value : Object) : M unit :=
  match as_Function self with
  | None => panic
  | Some fp =>
      match as_Dict value with
      | None => raise (ExceptionNewf TypeError "__dict__ must be set to a dict object" [])
      | Some dict => update_Function fp (fun f => set_Dict f dict)
      end
  end.

Definition name_Fget (self : Object) (h : Heap) : result Object :=
  match as_Function self with
  | None => Panic
  | Some fp =>
      match deref_Function fp h with
      | Ok f => Ok (String (Function.Name f))
      | Raise e => Raise e
      | Panic => Panic
      end
  end.

Definition name_Fset (self value : Object) : M unit :=
  match as_Function self with
  | None => panic
  | Some fp =>
      match as_String value with
      | None => raise (ExceptionNewf TypeError "__name__ must be set to a string object" [])
      | Some name => update_Function fp (fun f => set_Name f name)
      end
  end.

Definition qualname_Fget (self : Object) (h : Heap) : result Object :=
  match as_Function self with
  | None => Panic
  | Some fp =>
      match deref_Function fp h with
      | Ok f => Ok (String (Function.Qualname f))
      | Raise e => Raise e
      | Panic => Panic
      end
  end.

Definition qualname_Fset (self value : Object) : M unit :=
  match as_Function self with
  | None => panic
  | Some fp =>
      match as_String value with
      | None =>
          raise (ExceptionNewf TypeError "__qualname__ must be set to a string object" [])
      | Some qualname => update_Function fp (fun f => set_Qualname f qualname)
      end
  end.

Section Call.
(** [py.VmEvalCodeEx], the hook through which [py] reaches the evaluator
    of [vm]; it is not among the three files. *)
Variable VmEvalCodeEx :
  loc -> Dict -> Dict -> Tuple -> Dict -> Tuple -> option Dict -> Tuple -> M Object.

Definition M__call__ (f : loc) (args : Tuple) (kwargs : Dict) : M Object :=
  fn ← reading (deref_Function f);
  locals ← NewDict;
  VmEvalCodeEx (Function.Code fn) (Function.Globals fn) locals args kwargs
    (Function.Defaults fn) (Function.KwDefaults fn) (Function.Closure fn).
End Call.

(** ** More vocabulary *)

(** The text of a source that is text or bytes. *)
Definition source_text (cmd : Object) : option string :=
  match cmd with
  | String s => Some s
  | Bytes bs => Some (string_of_list_ascii bs)
  | _ => None
  end.

(** The entry [key: value] of a representation, with [show] for the
    representation of a value. *)
Definition repr_entry (show : Object -> string) (kv : Object * Object) : string :=
  (show kv.1 ++ ": ") ++ show kv.2.

Module SampleRepr.
(** A representation dispatch to run [M__repr__] with: text in quotes,
    numbers in decimal, [None] by name, and no representation for the
    rest. *)
Definition ReprAsString (o : Object) (h : Heap) : result string :=
  match o with
  | String s => Ok (("'" ++ s) ++ "'")
  | Int z => Ok (pretty z)
  | None_ => Ok "None"
  | _ => Raise (ExceptionNewf TypeError "no representation" [])
  end.
End SampleRepr.

Module SampleCall.
(** An evaluator hook to run [M__call__] with: it runs the sample
    evaluator on the code and the two namespaces. *)
Definition VmEvalCodeEx (code : loc) (globals locals : Dict) (args : Tuple)
    (kwargs : Dict) (defaults : Tuple) (kwdefaults : option Dict)
    (closure : Tuple) : M Object :=
  SampleVm.EvalCode code globals locals.
End SampleCall.

Module SampleSyntax.
(** A compiler to run the dispatcher with that turns down the empty text
    and compiles any other as the sample compiler does. *)
Definition Compile (source filename mode : string) (flags : Z)
    (interactive : bool) : M Object :=
  if String.eqb source "" then
    raise (ExceptionNewf (OtherError "SyntaxError") "unexpected EOF while parsing" [])
  else SampleVm.Compile source filename mode flags interactive.
End SampleSyntax.

(** * Properties *)

(** ** The definitions on small inputs *)

Example TrimLeft_blanks :
  TrimLeft (String.String " " (String.String "009" "x = 1 ")) blank_or_tab = "x = 1 ".
Proof. reflexivity. Qed.

Example Sprintf_code_mismatch :
  Sprintf (fun _ => "") "%s() requires a code object with %d free vars, not %d"
    [FStr "foo"; FInt 0; FInt 1]
  = "foo() requires a code object with 0 free vars, not 1".
Proof. vm_compute. reflexivity. Qed.

Example DictCheck_not_a_dict : DictCheck (Int 3) = Raise expectingDict.
Proof. reflexivity. Qed.

Example getitem_textual :
  M__getitem__ 1 (String "a") Samples.heap0 = Ok (Int 1).
Proof. vm_compute. reflexivity. Qed.

Example getitem_missing :
  M__getitem__ 1 (String "b") Samples.heap0
  = Raise (ExceptionNewf KeyError "%v" [FObj (String "b")]).
Proof. vm_compute. reflexivity. Qed.

Example contains_textual :
  M__contains__ 1 (String "a") Samples.heap0 = Ok True_ /\
  M__contains__ 1 (String "b") Samples.heap0 = Ok False_.
Proof. split; vm_compute; reflexivity. Qed.

Example ne_of_unequal_lengths :
  M__ne__ SampleEq.Eq (map_to_list (contents Samples.heap0 1)) 1 (DictRef 2)
    Samples.heap0 = Ok True_.
Proof. vm_compute. reflexivity. Qed.

Example eval_with_bad_globals :
  (builtinEval SampleVm.UnpackTuple SampleVm.Compile SampleVm.EvalCode None_
     [CodeRef 1; Int 0] 2 2 3 1 Samples.heap0).1
  = Raise (ExceptionNewf TypeError "globals must be a dict" []).
Proof. vm_compute. reflexivity. Qed.

Example eval_with_bad_locals :
  builtinEval SampleVm.UnpackTuple SampleVm.Compile SampleVm.EvalCode None_
    [CodeRef 1; DictRef 3; Int 0] 2 2 3 1 Samples.heap0
  = (Raise (ExceptionNewf TypeError "locals must be a dict" []), Samples.heap0).
Proof. vm_compute. reflexivity. Qed.

(** ** The store and the map primitives *)

Lemma contents_alloc (h : Heap) (d : Dict) (m : gmap Object Object) :
  dicts h !! d = Some m -> contents h d = m.
Proof. unfold contents. intros ->. reflexivity. Qed.

Lemma contents_set_eq (h : Heap) (d : Dict) (m : gmap Object Object) :
  contents (set_dicts h (<[d := m]> (dicts h))) d = m.
Proof. unfold contents. simpl. rewrite lookup_insert_eq. reflexivity. Qed.

Lemma contents_set_ne (h : Heap) (d d' : Dict) (m : gmap Object Object) :
  d ≠ d' -> contents (set_dicts h (<[d := m]> (dicts h))) d' = contents h d'.
Proof. intros Hne. unfold contents. simpl. rewrite lookup_insert_ne; done. Qed.

Lemma map_assign_alloc (d : Dict) (k v : Object) (h : Heap) (m : gmap Object Object) :
  dicts h !! d = Some m -> hashable k = true ->
  map_assign d k v h = (Ok tt, set_dicts h (<[d := <[k := v]> m]> (dicts h))).
Proof. intros Hd Hk. unfold map_assign. rewrite Hk, Hd. reflexivity. Qed.

(** Whatever a write or a removal on [d] does, it leaves every other map
    alone. *)
Lemma map_assign_frame (d d' : Dict) (k v : Object) (h h' : Heap) (r : result unit) :
  map_assign d k v h = (r, h') -> d ≠ d' -> dicts h' !! d' = dicts h !! d'.
Proof.
  unfold map_assign. intros H Hne.
  destruct (hashable k); [destruct (dicts h !! d) eqn:Hd |];
    inversion H; subst; simpl; try done.
  rewrite lookup_insert_ne; done.
Qed.

Lemma map_delete_frame (d d' : Dict) (k : Object) (h h' : Heap) (r : result unit) :
  map_delete d k h = (r, h') -> d ≠ d' -> dicts h' !! d' = dicts h !! d'.
Proof.
  unfold map_delete. intros H Hne.
  destruct (hashable k); [destruct (dicts h !! d) eqn:Hd |];
    inversion H; subst; simpl; try done.
  rewrite lookup_insert_ne; done.
Qed.

Lemma make_Dict_fresh (h : Heap) : dicts h !! fresh (dom (dicts h)) = None.
Proof. apply not_elem_of_dom. apply is_fresh. Qed.

Lemma range_of_elem (h : Heap) (d : Dict) (items : list (Object * Object)) k v :
  range_of h d items -> ((k, v) ∈ items <-> contents h d !! k = Some v).
Proof.
  unfold range_of. intros Hp. rewrite Hp. apply elem_of_map_to_list.
Qed.

Lemma range_of_hashable (h : Heap) (d : Dict) (items : list (Object * Object)) :
  wf_heap h -> range_of h d items ->
  forall k v, (k, v) ∈ items -> hashable k = true.
Proof.
  intros Hwf Hr k v Hin. apply (range_of_elem _ _ _ k v Hr) in Hin.
  unfold contents in Hin. destruct (dicts h !! d) as [m|] eqn:Hd; simpl in Hin.
  - exact (map_Forall_lookup_1 _ _ _ _ (map_Forall_lookup_1 _ _ _ _ Hwf Hd) Hin).
  - rewrite lookup_empty in Hin. discriminate.
Qed.

(** ** Copy *)

Lemma Copy_loop_run (items : list (Object * Object)) :
  forall (e : Dict) (h : Heap) (m : gmap Object Object),
    dicts h !! e = Some m ->
    (forall k v, (k, v) ∈ items -> hashable k = true) ->
    Copy_loop e items h =
      (Ok tt, set_dicts h (<[e := foldl store_entry m items]> (dicts h))).
Proof.
  induction items as [|[k v] rest IH]; intros e h m He Hh; simpl.
  - unfold mret, M_ret, ret. f_equal. destruct h as [ds cs fs]. unfold set_dicts.
    simpl in *. f_equal. symmetry. apply insert_id. exact He.
  - unfold mbind, M_bind, bind.
    rewrite (map_assign_alloc e k v h m He) by (apply (Hh k v); left).
    rewrite (IH e _ (<[k := v]> m)).
    + f_equal. unfold set_dicts. simpl. f_equal. apply insert_insert_eq.
    + simpl. apply lookup_insert_eq.
    + intros k' v' Hin. apply (Hh k' v'). right. exact Hin.
Qed.

Lemma foldl_store_entry (items : list (Object * Object)) :
  forall m : gmap Object Object,
    NoDup items.*1 ->
    foldl store_entry m items = list_to_map items ∪ m.
Proof.
  induction items as [|[k v] rest IH]; intros m Hnd; simpl.
  - symmetry. apply (left_id ∅ (∪)).
  - apply NoDup_cons in Hnd as [Hk Hnd].
    rewrite (IH _ Hnd). unfold store_entry at 1. simpl.
    rewrite <- insert_union_r, insert_union_l; [reflexivity |].
    apply not_elem_of_list_to_map_1. exact Hk.
Qed.

Lemma foldl_store_entry_range (h : Heap) (d : Dict) (items : list (Object * Object)) :
  range_of h d items -> foldl store_entry ∅ items = contents h d.
Proof.
  unfold range_of. intros Hp.
  assert (Hnd : NoDup items.*1).
  { rewrite Hp. apply NoDup_fst_map_to_list. }
  rewrite (foldl_store_entry items ∅ Hnd), (right_id ∅ (∪)).
  rewrite (list_to_map_proper items (map_to_list (contents h d)) Hnd Hp).
  apply list_to_map_to_list.
Qed.

Lemma mutate_frame (d d' : Dict) (mu : mutation) (h : Heap) :
  d ≠ d' -> dicts (mutate d mu h).2 !! d' = dicts h !! d'.
Proof.
  intros Hne. destruct mu as [k v | k]; simpl.
  - unfold M__setitem__, mbind, M_bind, bind.
    destruct (map_assign d k v h) as [r h'] eqn:Hm.
    pose proof (map_assign_frame d d' k v h h' r Hm Hne) as Hf.
    destruct r; simpl; exact Hf.
  - destruct (map_delete d k h) as [r h'] eqn:Hm. simpl.
    exact (map_delete_frame d d' k h h' r Hm Hne).
Qed.

Lemma mutate_all_frame (d d' : Dict) (mus : list mutation) :
  forall h, d ≠ d' -> dicts (mutate_all d mus h) !! d' = dicts h !! d'.
Proof.
  induction mus as [|mu rest IH]; intros h Hne; simpl; [reflexivity |].
  rewrite (IH _ Hne). apply mutate_frame. exact Hne.
Qed.

(** C8: [d1.Copy()] returns a map with storage of its own that holds the
    very entries of [d1], and no sequence of later additions to and
    removals from the copy changes the entries or the length of [d1]. *)
Theorem Copy_independent (items : list (Object * Object)) (d1 : Dict) (h : Heap) :
  wf_heap h -> is_Some (dicts h !! d1) -> range_of h d1 items ->
  exists (d2 : Dict) (h' : Heap),
    Copy items d1 h = (Ok d2, h') /\
    d2 ≠ d1 /\
    dicts h !! d2 = None /\
    contents h' d2 = contents h d1 /\
    contents h' d1 = contents h d1 /\
    forall mus : list mutation,
      contents (mutate_all d2 mus h') d1 = contents h d1 /\
      map_len (mutate_all d2 mus h') d1 = map_len h d1.
Proof.
  intros Hwf [m1 Hd1] Hr.
  set (e := fresh (dom (dicts h))).
  assert (He : dicts h !! e = None) by apply make_Dict_fresh.
  assert (Hne : e ≠ d1) by (intros E; rewrite E in He; congruence).
  set (h1 := set_dicts h (<[e := ∅]> (dicts h))).
  assert (Hrun : Copy items d1 h =
                 (Ok e, set_dicts h1 (<[e := foldl store_entry ∅ items]> (dicts h1)))).
  { unfold Copy, mbind, M_bind, bind, make_Dict. fold e. fold h1.
    rewrite (Copy_loop_run items e h1 ∅).
    - reflexivity.
    - simpl. apply lookup_insert_eq.
    - exact (range_of_hashable h d1 items Hwf Hr). }
  eexists e, _. split; [exact Hrun |].
  assert (Hd1' : forall h2, dicts h2 !! d1 = dicts h1 !! d1 -> contents h2 d1 = contents h d1).
  { intros h2 E. unfold contents. rewrite E. unfold h1. simpl.
    rewrite lookup_insert_ne by exact Hne. reflexivity. }
  repeat split.
  - exact Hne.
  - exact He.
  - rewrite contents_set_eq. exact (foldl_store_entry_range h d1 items Hr).
  - apply Hd1'. simpl. rewrite lookup_insert_ne by exact Hne. reflexivity.
  - apply Hd1'. rewrite mutate_all_frame by exact Hne. simpl.
    rewrite lookup_insert_ne by exact Hne. reflexivity.
  - unfold map_len. f_equal. apply Hd1'. rewrite mutate_all_frame by exact Hne.
    simpl. rewrite lookup_insert_ne by exact Hne. reflexivity.
Qed.

Lemma Copy_independent_witness :
  let items := map_to_list (contents Samples.heap0 1) in
  wf_heap Samples.heap0 /\ is_Some (dicts Samples.heap0 !! 1%positive) /\
  range_of Samples.heap0 1 items /\
  exists (d2 : Dict) (h' : Heap),
    Copy items 1 Samples.heap0 = (Ok d2, h') /\
    d2 ≠ 1%positive /\
    dicts Samples.heap0 !! d2 = None /\
    contents h' d2 = contents Samples.heap0 1 /\
    contents h' 1 = contents Samples.heap0 1 /\
    forall mus : list mutation,
      contents (mutate_all d2 mus h') 1 = contents Samples.heap0 1 /\
      map_len (mutate_all d2 mus h') 1 = map_len Samples.heap0 1.
Proof.
  intros items.
  assert (Hwf : wf_heap Samples.heap0).
  { unfold wf_heap. apply (bool_decide_unpack _). vm_compute. exact I. }
  assert (Hal : is_Some (dicts Samples.heap0 !! 1%positive)).
  { apply (bool_decide_unpack _). vm_compute. exact I. }
  assert (Hr : range_of Samples.heap0 1 items) by (unfold range_of; reflexivity).
  split; [exact Hwf |]. split; [exact Hal |]. split; [exact Hr |].
  exact (Copy_independent items 1 Samples.heap0 Hwf Hal Hr).
Defined.

(** ** Indexed read and containment *)

Lemma map_index_String (h : Heap) (d : Dict) (s : string) :
  map_index h d (String s) = Ok (contents h d !! String s).
Proof. reflexivity. Qed.

(** C1, as stated, fails: a value stored under a key that is not textual
    cannot be read back with [M__getitem__]. *)
Lemma Get_nontextual_present_counterexample :
  ~ (forall (d : Dict) (k v : Object) (h h1 : Heap),
       as_String k = None ->
       M__setitem__ d k v h = (Ok None_, h1) ->
       contents h1 d !! k = Some v /\ M__getitem__ d k h1 = Ok v).
Proof.
  intros claim.
  destruct (claim 2%positive (Int 7) (String "seven") Samples.heap0
              (M__setitem__ 2%positive (Int 7) (String "seven") Samples.heap0).2
              eq_refl) as [_ Hget].
  - vm_compute. reflexivity.
  - vm_compute in Hget. discriminate Hget.
Qed.

(** C1, amended: with a key that is not textual both the indexed read and
    the containment test raise a KeyError, whether or not the key is
    present; the indexed read returns the stored value for a textual key
    that is present, and the containment test answers for textual keys. *)
Theorem Get_Contains_nontextual (d : Dict) (k : Object) (h : Heap) :
  as_String k = None ->
  (exists e, M__getitem__ d k h = Raise e /\ exc_type e = KeyError) /\
  (exists e, M__contains__ d k h = Raise e /\ exc_type e = KeyError) /\
  (forall (s : string) (v : Object),
     contents h d !! String s = Some v ->
     M__getitem__ d (String s) h = Ok v /\
     M__contains__ d (String s) h = Ok True_) /\
  (forall s : string,
     contents h d !! String s = None ->
     (exists e, M__getitem__ d (String s) h = Raise e /\ exc_type e = KeyError) /\
     M__contains__ d (String s) h = Ok False_).
Proof.
  intros Hk. unfold M__getitem__, M__contains__. rewrite Hk.
  split; [eexists; split; reflexivity |].
  split; [eexists; split; reflexivity |].
  split.
  - intros s v Hs. cbn [as_String]. rewrite !map_index_String, Hs.
    split; reflexivity.
  - intros s Hs. cbn [as_String]. rewrite !map_index_String, Hs.
    split; [eexists; split; reflexivity | reflexivity].
Qed.

Lemma Get_Contains_nontextual_witness :
  as_String (Int 2) = None /\
  contents Samples.heap0 1 !! Int 2 = Some (DictRef 2) /\
  (exists e, M__getitem__ 1 (Int 2) Samples.heap0 = Raise e /\ exc_type e = KeyError) /\
  (exists e, M__contains__ 1 (Int 2) Samples.heap0 = Raise e /\ exc_type e = KeyError).
Proof.
  split; [reflexivity |]. split; [vm_compute; reflexivity |].
  destruct (Get_Contains_nontextual 1 (Int 2) Samples.heap0 eq_refl) as (Hg & Hc & _).
  split; [exact Hg | exact Hc].
Defined.

(** ** Equality and inequality *)

Section EqualityFacts.
Variable Eq : Object -> Object -> Heap -> result Object.

(** The loop of [M__eq__] answers [True] or [False] when it answers. *)
Lemma M__eq___loop_answers (b : Dict) (items : list (Object * Object)) (h : Heap) :
  forall r, M__eq___loop Eq b items h = Ok r -> exists t : bool, r = Bool t.
Proof.
  induction items as [|[k av] rest IH]; simpl; intros r Hr.
  - inversion Hr. eauto.
  - destruct (map_index h b k) as [[bv|]| |]; try discriminate.
    + destruct (Eq av bv h) as [res| |]; try discriminate.
      destruct (decide (res = False_)); [inversion Hr; eauto | exact (IH r Hr)].
    + inversion Hr. eauto.
Qed.

Lemma M__eq___answers (items : list (Object * Object)) (a : Dict) (other : Object)
    (h : Heap) :
  forall r, M__eq__ Eq items a other h = Ok r ->
            r = NotImplemented \/ exists t : bool, r = Bool t.
Proof.
  unfold M__eq__. intros r Hr. destruct (as_Dict other) as [b|].
  - right. destruct (decide (map_len h a ≠ map_len h b)).
    + inversion Hr. eauto.
    + exact (M__eq___loop_answers b items h r Hr).
  - left. inversion Hr. reflexivity.
Qed.

(** C10: [M__ne__] answers [NotImplemented] exactly when [M__eq__] does,
    fails exactly as [M__eq__] fails, and otherwise answers the negation
    of the boolean [M__eq__] answered; [M__eq__] has no other outcome. *)
Theorem Dict_ne_negates (items : list (Object * Object)) (a : Dict)
    (other : Object) (h : Heap) :
  (M__ne__ Eq items a other h = Ok NotImplemented <->
   M__eq__ Eq items a other h = Ok NotImplemented) /\
  (forall e, M__ne__ Eq items a other h = Raise e <->
             M__eq__ Eq items a other h = Raise e) /\
  (forall t : bool, M__eq__ Eq items a other h = Ok (Bool t) ->
                    M__ne__ Eq items a other h = Ok (Bool (negb t))) /\
  (M__eq__ Eq items a other h = Ok NotImplemented \/
   (exists t : bool, M__eq__ Eq items a other h = Ok (Bool t)) \/
   (exists e, M__eq__ Eq items a other h = Raise e) \/
   M__eq__ Eq items a other h = Panic).
Proof.
  pose proof (M__eq___answers items a other h) as Hans.
  unfold M__ne__.
  destruct (M__eq__ Eq items a other h) as [r|e|] eqn:Heq.
  - destruct (Hans r eq_refl) as [-> | [t ->]].
    + repeat split; try (intros; discriminate); eauto.
    + destruct t; simpl; repeat split; try (intros; discriminate);
        try (intros t' [= <-]; reflexivity); eauto.
  - repeat split; try (intros; discriminate); try (intros; assumption); eauto.
  - repeat split; try (intros; discriminate); eauto.
Qed.
End EqualityFacts.

Section StructuralEquality.
Variable Eq : Object -> Object -> Heap -> result Object.

(** The equality dispatch answers with a boolean when it answers. *)
Hypothesis Eq_boolean :
  forall a b h r, Eq a b h = Ok r -> exists t : bool, r = Bool t.

Lemma M__eq___loop_true (b : Dict) (h : Heap) (items : list (Object * Object)) :
  (forall k av, (k, av) ∈ items -> hashable k = true) ->
  (M__eq___loop Eq b items h = Ok True_ <->
   forall k av, (k, av) ∈ items ->
     exists bv, contents h b !! k = Some bv /\ compare_equal Eq h av bv).
Proof.
  unfold compare_equal.
  induction items as [|[k av] rest IH]; intros Hh.
  - simpl. split; [intros _ k av Hin; inversion Hin | reflexivity].
  - assert (Hk : hashable k = true) by (apply (Hh k av); left).
    assert (Hrest : forall k' av', (k', av') ∈ rest -> hashable k' = true).
    { intros k' av' Hin. apply (Hh k' av'). right. exact Hin. }
    specialize (IH Hrest). simpl. unfold map_index. rewrite Hk.
    destruct (contents h b !! k) as [bv|] eqn:Hb.
    + destruct (Eq av bv h) as [res| |] eqn:He.
      * destruct (decide (res = False_)) as [-> | Hres].
        -- split; [discriminate |]. intros Hall.
           destruct (Hall k av) as (bv' & Hb' & He'); [left |].
           congruence.
        -- destruct (Eq_boolean _ _ _ _ He) as [[|] ->]; [| congruence].
           rewrite IH. split.
           ++ intros Hall k' av' Hin. apply elem_of_cons in Hin as [[= -> ->] | Hin].
              ** eauto.
              ** exact (Hall k' av' Hin).
           ++ intros Hall k' av' Hin. apply (Hall k' av'). right. exact Hin.
      * split; [discriminate |]. intros Hall.
        destruct (Hall k av) as (bv' & Hb' & He'); [left |]. congruence.
      * split; [discriminate |]. intros Hall.
        destruct (Hall k av) as (bv' & Hb' & He'); [left |]. congruence.
    + split; [discriminate |]. intros Hall.
      destruct (Hall k av) as (bv' & Hb' & He'); [left |]. congruence.
Qed.

Lemma M__eq___same_length (items : list (Object * Object)) (a b : Dict) (h : Heap) :
  wf_heap h -> range_of h a items -> map_len h a = map_len h b ->
  (M__eq__ Eq items a (DictRef b) h = Ok True_ <->
   forall k av, contents h a !! k = Some av ->
     exists bv, contents h b !! k = Some bv /\ compare_equal Eq h av bv).
Proof.
  intros Hwf Hr Hlen. unfold M__eq__. simpl.
  destruct (decide (map_len h a ≠ map_len h b)) as [Hne | _]; [congruence |].
  rewrite (M__eq___loop_true b h items (range_of_hashable h a items Hwf Hr)).
  split; intros Hall k av Hin; apply (Hall k av);
    apply (range_of_elem h a items k av Hr); exact Hin.
Qed.

End StructuralEquality.


(** ** Function objects *)

(** C4: assigning a code unit to the [__code__] property succeeds exactly
    when its number of free variables is the length of the closure, and
    then the function holds the new unit; on a mismatch it raises a
    ValueError, on a value that is no code unit a TypeError, and both
    leave the store, so the function's code, as they were. *)
Theorem code_Fset_invariant (fp cp : loc) (f : Function.t) (c : Code.t) (h : Heap) :
  functions h !! fp = Some f -> codes h !! cp = Some c ->
  ((code_Fset (FunctionRef fp) (CodeRef cp) h).1 = Ok tt <->
   length (Code.Freevars c) = length (Function.Closure f)) /\
  (length (Code.Freevars c) = length (Function.Closure f) ->
   exists h',
     code_Fset (FunctionRef fp) (CodeRef cp) h = (Ok tt, h') /\
     functions h' !! fp = Some (Function.set_Code f cp) /\
     code_Fget (FunctionRef fp) h' = Ok (CodeRef cp)) /\
  (length (Code.Freevars c) ≠ length (Function.Closure f) ->
   exists e,
     code_Fset (FunctionRef fp) (CodeRef cp) h = (Raise e, h) /\
     exc_type e = ValueError /\
     code_Fget (FunctionRef fp) h = Ok (CodeRef (Function.Code f))) /\
  (forall value : Object, as_Code value = None ->
   exists e,
     code_Fset (FunctionRef fp) value h = (Raise e, h) /\
     exc_type e = TypeError /\
     code_Fget (FunctionRef fp) h = Ok (CodeRef (Function.Code f))).
Proof.
  intros Hf Hc.
  assert (Hget : code_Fget (FunctionRef fp) h = Ok (CodeRef (Function.Code f))).
  { unfold code_Fget, deref_Function. simpl. rewrite Hf. reflexivity. }
  assert (Hrun : code_Fset (FunctionRef fp) (CodeRef cp) h =
                 if decide (length (Code.Freevars c) ≠ length (Function.Closure f))
                 then (Raise (ExceptionNewf ValueError
                                "%s() requires a code object with %d free vars, not %d"
                                [FStr (Function.Name f);
                                 FInt (Z.of_nat (length (Function.Closure f)));
                                 FInt (Z.of_nat (length (Code.Freevars c)))]), h)
                 else (Ok tt, set_functions h
                                (<[fp := Function.set_Code f cp]> (functions h)))).
  { unfold code_Fset. simpl. unfold mbind, M_bind, bind, reading, deref_Code,
      deref_Function. rewrite Hc, Hf.
    destruct (decide (length (Code.Freevars c) ≠ length (Function.Closure f)));
      reflexivity. }
  split; [| split; [| split]].
  - rewrite Hrun.
    destruct (decide (length (Code.Freevars c) ≠ length (Function.Closure f)));
      simpl; split; intros H; try discriminate; try contradiction; try reflexivity.
    destruct (decide (length (Code.Freevars c) = length (Function.Closure f)));
      [assumption | contradiction].
  - intros Heq. rewrite Hrun.
    destruct (decide (length (Code.Freevars c) ≠ length (Function.Closure f)));
      [contradiction |].
    eexists. split; [reflexivity |]. simpl. split.
    + apply lookup_insert_eq.
    + unfold code_Fget, deref_Function. simpl. rewrite lookup_insert_eq. reflexivity.
  - intros Hne. rewrite Hrun.
    destruct (decide (length (Code.Freevars c) ≠ length (Function.Closure f)));
      [| contradiction].
    eexists. split; [reflexivity |]. split; [reflexivity | exact Hget].
  - intros value Hv. unfold code_Fset. simpl. rewrite Hv.
    eexists. split; [reflexivity |]. split; [reflexivity | exact Hget].
Qed.

Lemma code_Fset_invariant_witness :
  let f := {| Function.Code := 1%positive; Function.Globals := 3%positive;
              Function.Defaults := []; Function.KwDefaults := None;
              Function.Closure := []; Function.Doc := String "doc of foo";
              Function.Name := "foo"; Function.Dict := 2%positive;
              Function.Weakreflist := []; Function.Module_ := String "mymod";
              Function.Annotations := None; Function.Qualname := "foo" |} in
  functions Samples.heap0 !! 1%positive = Some f /\
  codes Samples.heap0 !! 2%positive = Some (Code.mk "inner" [Int 0] [String "x"]) /\
  exists e,
    code_Fset (FunctionRef 1) (CodeRef 2) Samples.heap0 = (Raise e, Samples.heap0) /\
    exc_type e = ValueError /\
    code_Fget (FunctionRef 1) Samples.heap0 = Ok (CodeRef 1).
Proof.
  intros f.
  assert (Hf : functions Samples.heap0 !! 1%positive = Some f)
    by (vm_compute; reflexivity).
  assert (Hc : codes Samples.heap0 !! 2%positive =
               Some (Code.mk "inner" [Int 0] [String "x"]))
    by (vm_compute; reflexivity).
  split; [exact Hf |]. split; [exact Hc |].
  destruct (code_Fset_invariant 1 2 f _ Samples.heap0 Hf Hc) as (_ & _ & Hne & _).
  apply Hne. simpl. discriminate.
Defined.

Lemma make_Dict_contents (h : Heap) (d : Dict) :
  contents (set_dicts h (<[fresh (dom (dicts h)) := ∅]> (dicts h))) d = contents h d.
Proof.
  unfold contents. simpl.
  destruct (decide (fresh (dom (dicts h)) = d)) as [<- | Hne].
  - rewrite lookup_insert_eq, make_Dict_fresh. reflexivity.
  - rewrite lookup_insert_ne by exact Hne. reflexivity.
Qed.

(** C5: [NewFunction] returns a new function object whose qualified name
    is the name of the code when none is given, whose module is the value
    of [__name__] in the globals or else [None], and whose doc is the first
    constant of the code if that is textual or else [None]; the code units
    and the maps that were there, the globals among them, are as before. *)
Theorem NewFunction_defaults (code : loc) (globals : Dict) (qualname : string)
    (co : Code.t) (h : Heap) :
  codes h !! code = Some co ->
  exists (fp : loc) (f : Function.t) (h' : Heap),
    NewFunction code globals qualname h = (Ok fp, h') /\
    functions h !! fp = None /\
    functions h' !! fp = Some f /\
    Function.Code f = code /\
    Function.Globals f = globals /\
    Function.Name f = Code.Name co /\
    (qualname = "" -> Function.Qualname f = Code.Name co) /\
    (qualname ≠ "" -> Function.Qualname f = qualname) /\
    (forall m, contents h globals !! String "__name__" = Some m ->
               Function.Module_ f = m) /\
    (contents h globals !! String "__name__" = None ->
     Function.Module_ f = None_) /\
    (forall s rest, Code.Consts co = String s :: rest -> Function.Doc f = String s) /\
    ((forall s rest, Code.Consts co ≠ String s :: rest) -> Function.Doc f = None_) /\
    codes h' = codes h /\
    (forall d, is_Some (dicts h !! d) -> dicts h' !! d = dicts h !! d) /\
    contents h' globals = contents h globals /\
    (forall p, p ≠ fp -> functions h' !! p = functions h !! p).
Proof.
  intros Hc.
  unfold NewFunction, mbind, M_bind, bind, reading, deref_Code. rewrite Hc.
  rewrite map_index_String. unfold make_Dict, new_Function. simpl.
  set (e := fresh (dom (dicts h))). set (fp := fresh (dom (functions h))).
  eexists fp, _, _. split; [reflexivity |]. simpl.
  split; [apply not_elem_of_dom, is_fresh |].
  split; [apply lookup_insert_eq |]. simpl.
  repeat split.
  - intros ->. reflexivity.
  - intros Hq. destruct (String.eqb_spec qualname ""); [contradiction | reflexivity].
  - intros m ->. reflexivity.
  - intros ->. reflexivity.
  - intros s rest ->. reflexivity.
  - intros Hno. destruct (Code.Consts co) as [|c0 rest]; [reflexivity |].
    destruct c0; try reflexivity. exfalso. exact (Hno _ _ eq_refl).
  - intros d [m Hd]. apply lookup_insert_ne. intros <-.
    pose proof (make_Dict_fresh h) as He. fold e in He. congruence.
  - apply make_Dict_contents.
  - intros p Hp. apply lookup_insert_ne. congruence.
Qed.

Lemma NewFunction_defaults_witness :
  codes Samples.heap0 !! 1%positive = Some (Code.mk "foo" [String "doc of foo"; Int 0] []) /\
  exists (fp : loc) (f : Function.t) (h' : Heap),
    NewFunction 1 3 "" Samples.heap0 = (Ok fp, h') /\
    functions h' !! fp = Some f /\
    Function.Qualname f = "foo" /\
    Function.Module_ f = String "mymod" /\
    Function.Doc f = String "doc of foo" /\
    contents h' 3 = contents Samples.heap0 3.
Proof.
  assert (Hc : codes Samples.heap0 !! 1%positive =
               Some (Code.mk "foo" [String "doc of foo"; Int 0] []))
    by (vm_compute; reflexivity).
  split; [exact Hc |].
  destruct (NewFunction_defaults 1 3 "" _ Samples.heap0 Hc)
    as (fp & f & h' & Hrun & _ & Hf & _ & _ & _ & Hq & _ & Hm & _ & Hd & _ & _ & _ & Hg & _).
  exists fp, f, h'. split; [exact Hrun |]. split; [exact Hf |].
  split; [exact (Hq eq_refl) |].
  split; [apply Hm; vm_compute; reflexivity |].
  split; [exact (Hd _ _ eq_refl) | exact Hg].
Defined.

(** ** The eval/exec dispatcher *)

Lemma inject_builtins_step (builtins G : Dict) (h : Heap) :
  is_Some (dicts h !! G) ->
  (if contents h G !! builtins_key is None
   then map_assign G builtins_key (DictRef builtins)
   else mret tt) h = (Ok tt, inject_builtins builtins G h).
Proof.
  intros [m Hm]. unfold inject_builtins.
  destruct (contents h G !! builtins_key) eqn:Hk; [reflexivity |].
  rewrite (map_assign_alloc G builtins_key (DictRef builtins) h m Hm eq_refl).
  rewrite (contents_alloc h G m Hm). reflexivity.
Qed.

Lemma inject_builtins_present (builtins G : Dict) (h : Heap) :
  is_Some (contents h G !! builtins_key) -> inject_builtins builtins G h = h.
Proof. intros [v Hv]. unfold inject_builtins. rewrite Hv. reflexivity. Qed.

Lemma inject_builtins_absent (builtins G : Dict) (h : Heap) :
  contents h G !! builtins_key = None ->
  contents (inject_builtins builtins G h) G =
    <[builtins_key := DictRef builtins]> (contents h G).
Proof.
  intros Hk. unfold inject_builtins. rewrite Hk. apply contents_set_eq.
Qed.

Lemma inject_builtins_frame (builtins G : Dict) (h : Heap) :
  (forall d, d ≠ G -> dicts (inject_builtins builtins G h) !! d = dicts h !! d) /\
  codes (inject_builtins builtins G h) = codes h /\
  functions (inject_builtins builtins G h) = functions h.
Proof.
  unfold inject_builtins.
  destruct (contents h G !! builtins_key); [repeat split |].
  split; [| split; reflexivity].
  intros d Hd. simpl. apply lookup_insert_ne. congruence.
Qed.

Lemma contents_lookup_alloc (h : Heap) (d : Dict) (k v : Object) :
  contents h d !! k = Some v -> is_Some (dicts h !! d).
Proof.
  unfold contents. destruct (dicts h !! d); [eauto |].
  simpl. rewrite lookup_empty. discriminate.
Qed.

Lemma inject_builtins_absent_alloc (builtins G : Dict) (h : Heap)
    (m : gmap Object Object) :
  dicts h !! G = Some m -> contents h G !! builtins_key = None ->
  inject_builtins builtins G h =
    set_dicts h (<[G := <[builtins_key := DictRef builtins]> m]> (dicts h)).
Proof.
  intros Hm Hk. unfold inject_builtins. rewrite Hk.
  rewrite (contents_alloc h G m Hm). reflexivity.
Qed.

(** Runs a settled call up to the point where the source is looked at. *)
Ltac settle_call HU Hns HG :=
  unfold builtinEvalOrExec;
  unfold mbind at 1, M_bind at 1, bind at 1, reading at 1; rewrite HU;
  destruct Hns;
  repeat first [rewrite decide_True by reflexivity
               | rewrite decide_False by discriminate];
  cbn [DictCheck DictCheckExact as_Dict];
  unfold mbind at 1, M_bind at 1, bind at 1, reading at 1;
  rewrite map_index_String;
  unfold mbind at 1, M_bind at 1, bind at 1;
  change (String "__builtins__") with builtins_key;
  rewrite (inject_builtins_step _ _ _ HG).

(** Runs the steps that turn the source into a unit. *)
Ltac resolve_unit Hres Hco :=
  destruct Hres as [? ? | ? ? ? ? Hcompile | ? ? ? ? Hcompile];
  unfold mbind, M_bind, bind, mret, M_ret, ret;
  try rewrite Hcompile; cbn [as_Code]; cbn beta iota;
  unfold reading, deref_Code; rewrite Hco.

Section DispatcherFacts.
Variable UnpackTuple :
  Tuple -> Dict -> string -> Z -> Z -> list Object -> Heap -> result (list Object).
Variable Compile : string -> string -> string -> Z -> bool -> M Object.
Variable EvalCode : loc -> Dict -> Dict -> M Object.

Lemma settled_closed_unit (self : Object) (args : Tuple)
    (kwargs currentLocals currentGlobals builtins : Dict) (mode : string)
    (h : Heap) (cmd : Object) (G L : Dict) (p : loc) (h2 : Heap) (co : Code.t) :
  settles UnpackTuple args kwargs currentLocals currentGlobals mode h cmd G L ->
  resolves Compile mode cmd (inject_builtins builtins G h) p h2 ->
  codes h2 !! p = Some co -> Code.GetNumFree co = 0 ->
  builtinEvalOrExec UnpackTuple Compile EvalCode self args kwargs currentLocals
    currentGlobals builtins mode h = EvalCode p G L h2.
Proof.
  intros (g & l & HU & Hns & HG) Hres Hco Hfree.
  settle_call HU Hns HG; resolve_unit Hres Hco;
    (rewrite decide_False by (rewrite Hfree; apply Nat.lt_irrefl)); reflexivity.
Qed.

Lemma settled_open_unit (self : Object) (args : Tuple)
    (kwargs currentLocals currentGlobals builtins : Dict) (mode : string)
    (h : Heap) (cmd : Object) (G L : Dict) (p : loc) (h2 : Heap) (co : Code.t) :
  settles UnpackTuple args kwargs currentLocals currentGlobals mode h cmd G L ->
  resolves Compile mode cmd (inject_builtins builtins G h) p h2 ->
  codes h2 !! p = Some co -> 0 < Code.GetNumFree co ->
  builtinEvalOrExec UnpackTuple Compile EvalCode self args kwargs currentLocals
    currentGlobals builtins mode h =
  (Raise (ExceptionNewf TypeError
            "code passed to %s() may not contain free variables" [FStr mode]), h2).
Proof.
  intros (g & l & HU & Hns & HG) Hres Hco Hfree.
  settle_call HU Hns HG; resolve_unit Hres Hco;
    (rewrite decide_True by exact Hfree); reflexivity.
Qed.

Lemma settled_invalid_source (self : Object) (args : Tuple)
    (kwargs currentLocals currentGlobals builtins : Dict) (mode : string)
    (h : Heap) (cmd : Object) (G L : Dict) :
  settles UnpackTuple args kwargs currentLocals currentGlobals mode h cmd G L ->
  invalid_source cmd = true ->
  builtinEvalOrExec UnpackTuple Compile EvalCode self args kwargs currentLocals
    currentGlobals builtins mode h =
  (Raise (ExceptionNewf TypeError
            "%s() arg 1 must be a string, bytes or code object" [FStr mode]),
   inject_builtins builtins G h).
Proof.
  intros (g & l & HU & Hns & HG) Hinv.
  settle_call HU Hns HG; destruct cmd; try discriminate Hinv; reflexivity.
Qed.

(** A call that succeeds went all the way: it settled, its source
    resolved to a closed unit, and the evaluator returned the value. *)
Lemma dispatch_success (self : Object) (args : Tuple)
    (kwargs currentLocals currentGlobals builtins : Dict) (mode : string)
    (h h' : Heap) (v : Object) :
  builtinEvalOrExec UnpackTuple Compile EvalCode self args kwargs currentLocals
    currentGlobals builtins mode h = (Ok v, h') ->
  exists (cmd : Object) (G L : Dict) (p : loc) (h2 : Heap) (co : Code.t),
    settles UnpackTuple args kwargs currentLocals currentGlobals mode h cmd G L /\
    resolves Compile mode cmd (inject_builtins builtins G h) p h2 /\
    codes h2 !! p = Some co /\ Code.GetNumFree co = 0 /\
    EvalCode p G L h2 = (Ok v, h').
Proof.
  unfold builtinEvalOrExec, mbind, M_bind, bind, mret, M_ret, ret, reading,
    raise, panic, DictCheck, DictCheckExact, deref_Code, map_assign.
  intros H.
  repeat (case_match; simplify_eq; try discriminate).
  all: repeat match goal with
       | Hg : as_Dict ?g = Some _ |- _ =>
           first [is_var g; destruct g; try discriminate Hg | idtac];
           simpl in Hg; simplify_eq
       | Hg : as_Code ?g = Some _ |- _ =>
           first [is_var g; destruct g; try discriminate Hg | idtac];
           simpl in Hg; simplify_eq
       | Hm : map_index _ _ (String _) = Ok _ |- _ =>
           rewrite map_index_String in Hm; simplify_eq
       end.
  all: change (String "__builtins__") with builtins_key in *.
  all: eexists _, _, _, _, _, _;
    (split;
     [eexists _, _; split;
      [eassumption | split; [constructor | eauto using contents_lookup_alloc]] |]).
  all: (split;
        [first [rewrite inject_builtins_present by eauto
               | erewrite inject_builtins_absent_alloc by eauto];
         econstructor; eauto |]).
  all: (split; [eassumption | split; [lia | eassumption]]).
Qed.

(** C2: a settled call whose source resolves to a closed unit hands that
    unit to the evaluator with the namespaces the defaulting rules give:
    the caller's current globals when none are given, with the caller's
    current locals unless locals are given; the given globals for both
    when only globals are given; both as given otherwise.  The evaluator
    starts from a store in which the globals hold the builtins: they were
    added in place when the key was missing, and nothing else changed. *)
Theorem namespace_defaulting (self : Object) (args : Tuple)
    (kwargs currentLocals currentGlobals builtins : Dict) (mode : string)
    (h : Heap) (cmd g l : Object) (G L : Dict) :
  UnpackTuple args kwargs mode 1 3 [Nil; None_; None_] h = Ok [cmd; g; l] ->
  namespaces_for currentGlobals currentLocals g l G L ->
  is_Some (dicts h !! G) ->
  (contents h G !! builtins_key = None ->
   contents (inject_builtins builtins G h) G =
     <[builtins_key := DictRef builtins]> (contents h G)) /\
  (is_Some (contents h G !! builtins_key) -> inject_builtins builtins G h = h) /\
  (forall d, d ≠ G -> dicts (inject_builtins builtins G h) !! d = dicts h !! d) /\
  (forall (p : loc) (h2 : Heap) (co : Code.t),
     resolves Compile mode cmd (inject_builtins builtins G h) p h2 ->
     codes h2 !! p = Some co -> Code.GetNumFree co = 0 ->
     builtinEvalOrExec UnpackTuple Compile EvalCode self args kwargs currentLocals
       currentGlobals builtins mode h = EvalCode p G L h2).
Proof.
  intros HU Hns HG.
  split; [apply inject_builtins_absent |].
  split; [apply inject_builtins_present |].
  split; [apply inject_builtins_frame |].
  intros p h2 co. apply settled_closed_unit. exists g, l. auto.
Qed.

(** C6: when the source of a settled call resolves to a unit with free
    variables, the dispatcher raises a TypeError whose message names the
    mode and says that the code may not contain free variables, and it
    does so whatever the evaluator is: the evaluator is not run. *)
Theorem free_variables_rejected (self : Object) (args : Tuple)
    (kwargs currentLocals currentGlobals builtins : Dict) (mode : string)
    (h : Heap) (cmd : Object) (G L : Dict) (p : loc) (h2 : Heap) (co : Code.t) :
  settles UnpackTuple args kwargs currentLocals currentGlobals mode h cmd G L ->
  resolves Compile mode cmd (inject_builtins builtins G h) p h2 ->
  codes h2 !! p = Some co -> 0 < Code.GetNumFree co ->
  exists e : Exception,
    builtinEvalOrExec UnpackTuple Compile EvalCode self args kwargs currentLocals
      currentGlobals builtins mode h = (Raise e, h2) /\
    exc_type e = TypeError /\
    (forall show, exc_message show e =
                  "code passed to " ++ mode ++ "() may not contain free variables") /\
    (forall EvalCode' : loc -> Dict -> Dict -> M Object,
       builtinEvalOrExec UnpackTuple Compile EvalCode' self args kwargs currentLocals
         currentGlobals builtins mode h = (Raise e, h2)).
Proof.
  intros Hs Hres Hco Hfree. eexists. split; [| split; [| split]].
  - exact (settled_open_unit self args kwargs currentLocals currentGlobals builtins
             mode h cmd G L p h2 co Hs Hres Hco Hfree).
  - reflexivity.
  - intros show. reflexivity.
  - intros EvalCode'. unfold settles in Hs. destruct Hs as (g & l & HU & Hns & HG).
    settle_call HU Hns HG; resolve_unit Hres Hco;
      (rewrite decide_True by exact Hfree); reflexivity.
Qed.

(** C7: when [builtinEval] succeeds the call settled, its source resolved
    to a closed unit, and the value returned is the one the evaluator
    returned for it; when [builtinExec] succeeds, the same holds of the
    evaluator and the value returned is [None].  On a settled call with a
    closed unit [builtinEval] is the evaluator's outcome, error or not, and
    [builtinExec] is that outcome with [None] in place of a value. *)
Theorem eval_exec_results (self : Object) (args : Tuple)
    (kwargs currentLocals currentGlobals builtins : Dict) (h : Heap) :
  (forall v h',
     builtinEval UnpackTuple Compile EvalCode self args kwargs currentLocals
       currentGlobals builtins h = (Ok v, h') ->
     exists (cmd : Object) (G L : Dict) (p : loc) (h2 : Heap) (co : Code.t),
       settles UnpackTuple args kwargs currentLocals currentGlobals "eval" h cmd G L /\
       resolves Compile "eval" cmd (inject_builtins builtins G h) p h2 /\
       codes h2 !! p = Some co /\ Code.GetNumFree co = 0 /\
       EvalCode p G L h2 = (Ok v, h')) /\
  (forall v h',
     builtinExec UnpackTuple Compile EvalCode self args kwargs currentLocals
       currentGlobals builtins h = (Ok v, h') ->
     v = None_ /\
     exists (cmd : Object) (G L : Dict) (p : loc) (h2 : Heap) (co : Code.t)
            (w : Object),
       settles UnpackTuple args kwargs currentLocals currentGlobals "exec" h cmd G L /\
       resolves Compile "exec" cmd (inject_builtins builtins G h) p h2 /\
       codes h2 !! p = Some co /\ Code.GetNumFree co = 0 /\
       EvalCode p G L h2 = (Ok w, h')) /\
  (forall (cmd : Object) (G L : Dict) (p : loc) (h2 : Heap) (co : Code.t),
     settles UnpackTuple args kwargs currentLocals currentGlobals "eval" h cmd G L ->
     resolves Compile "eval" cmd (inject_builtins builtins G h) p h2 ->
     codes h2 !! p = Some co -> Code.GetNumFree co = 0 ->
     builtinEval UnpackTuple Compile EvalCode self args kwargs currentLocals
       currentGlobals builtins h = EvalCode p G L h2) /\
  (forall (cmd : Object) (G L : Dict) (p : loc) (h2 : Heap) (co : Code.t),
     settles UnpackTuple args kwargs currentLocals currentGlobals "exec" h cmd G L ->
     resolves Compile "exec" cmd (inject_builtins builtins G h) p h2 ->
     codes h2 !! p = Some co -> Code.GetNumFree co = 0 ->
     builtinExec UnpackTuple Compile EvalCode self args kwargs currentLocals
       currentGlobals builtins h =
     match EvalCode p G L h2 with
     | (Ok _, h') => (Ok None_, h')
     | (Raise e, h') => (Raise e, h')
     | (Panic, h') => (Panic, h')
     end).
Proof.
  split; [| split; [| split]].
  - intros v h'. apply dispatch_success.
  - intros v h'. unfold builtinExec, mbind, M_bind, bind.
    destruct (builtinEvalOrExec UnpackTuple Compile EvalCode self args kwargs
                currentLocals currentGlobals builtins "exec" h)
      as [[w| |] h1] eqn:Hrun; intros [= <- <-].
    split; [reflexivity |].
    destruct (dispatch_success _ _ _ _ _ _ _ _ _ _ Hrun)
      as (cmd & G & L & p & h2 & co & Hs & Hres & Hco & Hfree & He).
    exists cmd, G, L, p, h2, co, w. auto.
  - intros cmd G L p h2 co. apply settled_closed_unit.
  - intros cmd G L p h2 co Hs Hres Hco Hfree.
    unfold builtinExec, mbind, M_bind, bind.
    rewrite (settled_closed_unit self args kwargs currentLocals currentGlobals
               builtins "exec" h cmd G L p h2 co Hs Hres Hco Hfree).
    destruct (EvalCode p G L h2) as [[w| |] h']; reflexivity.
Qed.

(** C9: the builtins are put into the globals before the source is looked
    at.  When the globals of a settled call lack the key and the call
    fails because the source is neither code, text nor bytes, or because
    the unit has free variables, it fails with a TypeError and the globals
    hold the builtins afterwards.  The compiler is taken not to write to
    maps. *)
Theorem builtins_injected_before_failure (self : Object) (args : Tuple)
    (kwargs currentLocals currentGlobals builtins : Dict) (mode : string)
    (h : Heap) (cmd : Object) (G L : Dict) :
  (forall s f m fl i h0 r h1, Compile s f m fl i h0 = (r, h1) -> dicts h1 = dicts h0) ->
  settles UnpackTuple args kwargs currentLocals currentGlobals mode h cmd G L ->
  contents h G !! builtins_key = None ->
  (invalid_source cmd = true \/
   exists (p : loc) (h2 : Heap) (co : Code.t),
     resolves Compile mode cmd (inject_builtins builtins G h) p h2 /\
     codes h2 !! p = Some co /\ 0 < Code.GetNumFree co) ->
  exists (e : Exception) (h' : Heap),
    builtinEvalOrExec UnpackTuple Compile EvalCode self args kwargs currentLocals
      currentGlobals builtins mode h = (Raise e, h') /\
    exc_type e = TypeError /\
    contents h' G !! builtins_key = Some (DictRef builtins).
Proof.
  intros Hframe Hs Hk Hfail.
  assert (Hin : contents (inject_builtins builtins G h) G !! builtins_key =
                Some (DictRef builtins)).
  { rewrite (inject_builtins_absent builtins G h Hk). apply lookup_insert_eq. }
  destruct Hfail as [Hinv | (p & h2 & co & Hres & Hco & Hfree)].
  - eexists _, _. split; [| split].
    + exact (settled_invalid_source self args kwargs currentLocals currentGlobals
               builtins mode h cmd G L Hs Hinv).
    + reflexivity.
    + exact Hin.
  - eexists _, _. split; [| split].
    + exact (settled_open_unit self args kwargs currentLocals currentGlobals builtins
               mode h cmd G L p h2 co Hs Hres Hco Hfree).
    + reflexivity.
    + assert (Hd : dicts h2 = dicts (inject_builtins builtins G h)).
      { destruct Hres as [? ? | ? ? ? ? Hc | ? ? ? ? Hc];
          [reflexivity | exact (Hframe _ _ _ _ _ _ _ _ Hc)
           | exact (Hframe _ _ _ _ _ _ _ _ Hc)]. }
      unfold contents in *. rewrite Hd. exact Hin.
Qed.
End DispatcherFacts.

(** *** The dispatcher on the sample store

    In the calls below the keyword arguments are map 2 (empty), the
    caller's locals map 2, the caller's globals map 3 and the builtins
    map 1. *)

Lemma namespace_defaulting_witness :
  let h1 := inject_builtins 1 3 Samples.heap0 in
  SampleVm.UnpackTuple [CodeRef 1] 2 "eval" 1 3 [Nil; None_; None_] Samples.heap0
    = Ok [CodeRef 1; None_; None_] /\
  namespaces_for 3 2 None_ None_ 3 2 /\
  is_Some (dicts Samples.heap0 !! 3%positive) /\
  contents Samples.heap0 3 !! builtins_key = None /\
  contents h1 3 !! builtins_key = Some (DictRef 1) /\
  builtinEvalOrExec SampleVm.UnpackTuple SampleVm.Compile SampleVm.EvalCode
    None_ [CodeRef 1] 2 2 3 1 "eval" Samples.heap0 = SampleVm.EvalCode 1 3 2 h1.
Proof.
  intros h1.
  assert (HU : SampleVm.UnpackTuple [CodeRef 1] 2 "eval" 1 3 [Nil; None_; None_]
                 Samples.heap0 = Ok [CodeRef 1; None_; None_]) by reflexivity.
  assert (Hns : namespaces_for 3 2 None_ None_ 3 2) by constructor.
  assert (HG : is_Some (dicts Samples.heap0 !! 3%positive)).
  { apply (bool_decide_unpack _). vm_compute. exact I. }
  assert (Hk : contents Samples.heap0 3 !! builtins_key = None)
    by (vm_compute; reflexivity).
  destruct (namespace_defaulting SampleVm.UnpackTuple SampleVm.Compile
              SampleVm.EvalCode None_ [CodeRef 1] 2 2 3 1 "eval" Samples.heap0
              (CodeRef 1) None_ None_ 3 2 HU Hns HG) as (Habs & _ & _ & Hrun).
  repeat (split; [assumption |]). split.
  - unfold h1. rewrite (Habs Hk). apply lookup_insert_eq.
  - apply (Hrun 1%positive h1 (Code.mk "foo" [String "doc of foo"; Int 0] [])).
    + constructor.
    + vm_compute. reflexivity.
    + reflexivity.
Defined.

Lemma free_variables_rejected_witness :
  let h1 := inject_builtins 1 3 Samples.heap0 in
  settles SampleVm.UnpackTuple [CodeRef 2] 2 2 3 "exec" Samples.heap0 (CodeRef 2) 3 2 /\
  resolves SampleVm.Compile "exec" (CodeRef 2) h1 2 h1 /\
  codes h1 !! 2%positive = Some (Code.mk "inner" [Int 0] [String "x"]) /\
  exists e : Exception,
    builtinEvalOrExec SampleVm.UnpackTuple SampleVm.Compile SampleVm.EvalCode
      None_ [CodeRef 2] 2 2 3 1 "exec" Samples.heap0 = (Raise e, h1) /\
    exc_type e = TypeError /\
    exc_message (fun _ => "") e = "code passed to exec() may not contain free variables".
Proof.
  intros h1.
  assert (Hs : settles SampleVm.UnpackTuple [CodeRef 2] 2 2 3 "exec" Samples.heap0
                 (CodeRef 2) 3 2).
  { exists None_, None_. split; [reflexivity |]. split; [constructor |].
    apply (bool_decide_unpack _). vm_compute. exact I. }
  assert (Hres : resolves SampleVm.Compile "exec" (CodeRef 2) h1 2 h1) by constructor.
  assert (Hco : codes h1 !! 2%positive = Some (Code.mk "inner" [Int 0] [String "x"]))
    by (vm_compute; reflexivity).
  repeat (split; [assumption |]).
  destruct (free_variables_rejected SampleVm.UnpackTuple SampleVm.Compile
              SampleVm.EvalCode None_ [CodeRef 2] 2 2 3 1 "exec" Samples.heap0
              (CodeRef 2) 3 2 2 h1 _ Hs Hres Hco) as (e & Hrun & Hty & Hmsg & _).
  - unfold Code.GetNumFree. simpl. lia.
  - exists e. split; [exact Hrun |]. split; [exact Hty | exact (Hmsg _)].
Defined.

Lemma eval_exec_results_witness :
  let h1 := inject_builtins 1 3 Samples.heap0 in
  let p := fresh (dom (codes h1)) in
  let h2 := set_codes h1 (<[p := Code.mk "<module>" [String "x = 1"] []]> (codes h1)) in
  let call :=
    builtinExec SampleVm.UnpackTuple SampleVm.Compile SampleVm.EvalCode
      None_ [String "  x = 1"; DictRef 3; DictRef 2] 2 1 1 1 Samples.heap0 in
  settles SampleVm.UnpackTuple [String "  x = 1"; DictRef 3; DictRef 2] 2 1 1 "exec"
    Samples.heap0 (String "  x = 1") 3 2 /\
  resolves SampleVm.Compile "exec" (String "  x = 1") h1 p h2 /\
  call = match SampleVm.EvalCode p 3 2 h2 with
         | (Ok _, h') => (Ok None_, h')
         | (Raise e, h') => (Raise e, h')
         | (Panic, h') => (Panic, h')
         end /\
  call.1 = Ok None_ /\
  contents call.2 2 !! String "x" = Some (Int 1).
Proof.
  intros h1 p h2 call.
  assert (Hs : settles SampleVm.UnpackTuple [String "  x = 1"; DictRef 3; DictRef 2]
                 2 1 1 "exec" Samples.heap0 (String "  x = 1") 3 2).
  { exists (DictRef 3), (DictRef 2). split; [reflexivity |]. split; [constructor |].
    apply (bool_decide_unpack _). vm_compute. exact I. }
  assert (Hres : resolves SampleVm.Compile "exec" (String "  x = 1") h1 p h2).
  { constructor. reflexivity. }
  split; [exact Hs |]. split; [exact Hres |]. split; [| split].
  - destruct (eval_exec_results SampleVm.UnpackTuple SampleVm.Compile
                SampleVm.EvalCode None_ [String "  x = 1"; DictRef 3; DictRef 2]
                2 1 1 1 Samples.heap0) as (_ & _ & _ & Hexec).
    apply (Hexec (String "  x = 1") 3%positive 2%positive p h2
             (Code.mk "<module>" [String "x = 1"] []) Hs Hres).
    + simpl. apply lookup_insert_eq.
    + reflexivity.
  - vm_compute. reflexivity.
  - vm_compute. reflexivity.
Defined.

Lemma builtins_injected_before_failure_witness :
  (forall s f m fl i h0 r h1,
     SampleVm.Compile s f m fl i h0 = (r, h1) -> dicts h1 = dicts h0) /\
  settles SampleVm.UnpackTuple [Int 5] 2 2 3 "eval" Samples.heap0 (Int 5) 3 2 /\
  contents Samples.heap0 3 !! builtins_key = None /\
  invalid_source (Int 5) = true /\
  exists (e : Exception) (h' : Heap),
    builtinEvalOrExec SampleVm.UnpackTuple SampleVm.Compile SampleVm.EvalCode
      None_ [Int 5] 2 2 3 1 "eval" Samples.heap0 = (Raise e, h') /\
    exc_type e = TypeError /\
    contents h' 3 !! builtins_key = Some (DictRef 1).
Proof.
  assert (Hframe : forall s f m fl i h0 r h1,
             SampleVm.Compile s f m fl i h0 = (r, h1) -> dicts h1 = dicts h0).
  { intros s f m fl i h0 r h1 [= _ <-]. reflexivity. }
  assert (Hs : settles SampleVm.UnpackTuple [Int 5] 2 2 3 "eval" Samples.heap0
                 (Int 5) 3 2).
  { exists None_, None_. split; [reflexivity |]. split; [constructor |].
    apply (bool_decide_unpack _). vm_compute. exact I. }
  assert (Hk : contents Samples.heap0 3 !! builtins_key = None)
    by (vm_compute; reflexivity).
  split; [exact Hframe |]. split; [exact Hs |]. split; [exact Hk |].
  split; [reflexivity |].
  exact (builtins_injected_before_failure SampleVm.UnpackTuple SampleVm.Compile
           SampleVm.EvalCode None_ [Int 5] 2 2 3 1 "eval" Samples.heap0 (Int 5) 3 2
           Hframe Hs Hk (or_introl eq_refl)).
Defined.

(** * Further properties *)

(** ** Strings *)

Lemma append_empty_r (s : string) : s ++ "" = s.
Proof.
  induction s as [|c s IH]; [reflexivity |].
  change (String.String c (s ++ "") = String.String c s). rewrite IH. reflexivity.
Qed.

Lemma append_assoc (s1 s2 s3 : string) : (s1 ++ s2) ++ s3 = s1 ++ (s2 ++ s3).
Proof.
  induction s1 as [|c s1 IH]; [reflexivity |].
  change (String.String c ((s1 ++ s2) ++ s3) = String.String c (s1 ++ (s2 ++ s3))).
  rewrite IH. reflexivity.
Qed.

(** ** Writing to a Dict and reading it back *)

Lemma M__setitem___run (d : Dict) (k v : Object) (h : Heap) (m : gmap Object Object) :
  dicts h !! d = Some m -> hashable k = true ->
  M__setitem__ d k v h = (Ok None_, set_dicts h (<[d := <[k := v]> m]> (dicts h))).
Proof.
  intros Hd Hk. unfold M__setitem__, mbind, M_bind, bind.
  rewrite (map_assign_alloc d k v h m Hd Hk). reflexivity.
Qed.

Lemma DictType_get_textual (d : Dict) (s : string) (rest : list Object) (h : Heap) :
  (length rest <= 1)%nat ->
  DictType_get (DictRef d) (String s :: rest) h
  = Ok (default (default None_ (head rest)) (contents h d !! String s)).
Proof.
  intros Hlen. unfold DictType_get.
  destruct rest as [|dflt [|? ?]]; simpl in Hlen; [| | lia].
  - cbn -[map_index]. rewrite map_index_String.
    destruct (contents h d !! String s); reflexivity.
  - cbn -[map_index]. rewrite map_index_String.
    destruct (contents h d !! String s); reflexivity.
Qed.

(** X1: a value stored under a textual key with [M__setitem__] is what
    [M__getitem__] and the [get] method, with or without a default, return
    afterwards, and [M__contains__] answers [True]. *)
Theorem setitem_then_read (d : Dict) (s : string) (v : Object) (h : Heap) :
  is_Some (dicts h !! d) ->
  exists h' : Heap,
    M__setitem__ d (String s) v h = (Ok None_, h') /\
    M__getitem__ d (String s) h' = Ok v /\
    M__contains__ d (String s) h' = Ok True_ /\
    DictType_get (DictRef d) [String s] h' = Ok v /\
    (forall dflt, DictType_get (DictRef d) [String s; dflt] h' = Ok v).
Proof.
  intros [m Hd]. eexists. split; [exact (M__setitem___run d (String s) v h m Hd eq_refl) |].
  assert (Hk : contents (set_dicts h (<[d := <[String s := v]> m]> (dicts h))) d
               !! String s = Some v).
  { rewrite contents_set_eq. apply lookup_insert_eq. }
  unfold M__getitem__, M__contains__. cbn [as_String].
  rewrite !map_index_String, Hk.
  split; [reflexivity |]. split; [reflexivity |]. split.
  - rewrite DictType_get_textual by (simpl; lia). rewrite Hk. reflexivity.
  - intros dflt. rewrite DictType_get_textual by (simpl; lia). rewrite Hk. reflexivity.
Qed.

Lemma setitem_then_read_witness :
  is_Some (dicts Samples.heap0 !! 2%positive) /\
  exists h' : Heap,
    M__setitem__ 2 (String "k") (Int 5) Samples.heap0 = (Ok None_, h') /\
    M__getitem__ 2 (String "k") h' = Ok (Int 5).
Proof.
  assert (Hd : is_Some (dicts Samples.heap0 !! 2%positive)).
  { apply (bool_decide_unpack _). vm_compute. exact I. }
  split; [exact Hd |].
  destruct (setitem_then_read 2 "k" (Int 5) Samples.heap0 Hd) as (h' & Hset & Hget & _).
  exists h'. split; assumption.
Defined.




(** ** The [get] method *)

(** X4: with one or two arguments and a textual key, [get] returns the
    stored value when the key is present, whatever the default, and
    otherwise the default, or [None] when none is given; with a key that
    is not textual it raises a KeyError even when a default is given. *)
Theorem DictType_get_lookup (d : Dict) (key : Object) (rest : list Object) (h : Heap) :
  (length rest <= 1)%nat ->
  (forall s v, key = String s -> contents h d !! String s = Some v ->
     DictType_get (DictRef d) (key :: rest) h = Ok v) /\
  (forall s, key = String s -> contents h d !! String s = None ->
     DictType_get (DictRef d) (key :: rest) h = Ok (default None_ (head rest))) /\
  (as_String key = None ->
     DictType_get (DictRef d) (key :: rest) h
     = Raise (ExceptionNewf KeyError "%v" [FObj key])).
Proof.
  intros Hlen. repeat split.
  - intros s v -> Hv. rewrite (DictType_get_textual d s rest h Hlen), Hv. reflexivity.
  - intros s -> Hv. rewrite (DictType_get_textual d s rest h Hlen), Hv. reflexivity.
  - intros Hk. unfold DictType_get.
    destruct rest as [|dflt [|? ?]]; simpl in Hlen; [| | lia];
      cbn -[map_index]; rewrite Hk; reflexivity.
Qed.

Lemma DictType_get_lookup_witness :
  (length [Int 9] <= 1)%nat /\
  DictType_get (DictRef 1) [String "a"; Int 9] Samples.heap0 = Ok (Int 1) /\
  DictType_get (DictRef 1) [String "zz"; Int 9] Samples.heap0 = Ok (Int 9) /\
  DictType_get (DictRef 1) [Int 2; Int 9] Samples.heap0
  = Raise (ExceptionNewf KeyError "%v" [FObj (Int 2)]).
Proof.
  assert (Hlen : (length [Int 9] <= 1)%nat) by (simpl; lia).
  split; [exact Hlen |].
  split; [| split].
  - destruct (DictType_get_lookup 1 (String "a") [Int 9] Samples.heap0 Hlen)
      as (Hp & _ & _).
    apply (Hp "a" (Int 1) eq_refl). vm_compute. reflexivity.
  - destruct (DictType_get_lookup 1 (String "zz") [Int 9] Samples.heap0 Hlen)
      as (_ & Ha & _).
    apply (Ha "zz" eq_refl). vm_compute. reflexivity.
  - destruct (DictType_get_lookup 1 (Int 2) [Int 9] Samples.heap0 Hlen)
      as (_ & _ & Hn).
    exact (Hn eq_refl).
Defined.

(** X5: [get] checks the number of arguments before it looks at [self] or
    at the store: with none, or with more than two, it raises a TypeError
    whatever [self] is; the message gives the count and names the method
    as [items()]. *)
Theorem DictType_get_arity (self : Object) (args : Tuple) (h : Heap) :
  (length args = 0 \/ 2 < length args)%nat ->
  exists e : Exception,
    DictType_get self args h = Raise e /\
    exc_type e = TypeError /\
    (args = [] ->
     forall show, exc_message show e = "items() expected at least 1 arguments, got 0") /\
    ((2 < length args)%nat ->
     forall show, exc_message show e =
       "items() expected at most 2 arguments, got " ++ pretty (Z.of_nat (length args))).
Proof.
  intros Hlen. unfold DictType_get.
  destruct (decide (Z.of_nat (length args) = 0%Z)) as [H0 | H0].
  - eexists. split; [reflexivity |]. split; [reflexivity |]. split.
    + intros -> show. reflexivity.
    + intros Hgt. lia.
  - destruct (decide (2 < Z.of_nat (length args))%Z) as [H2 | H2]; [| lia].
    eexists. split; [reflexivity |]. split; [reflexivity |]. split.
    + intros ->. simpl in H0. lia.
    + intros _ show. unfold exc_message. cbn.
      rewrite append_empty_r. reflexivity.
Qed.

Lemma DictType_get_arity_witness :
  (length [String "a"; Int 0; Int 1] = 0 \/ 2 < length [String "a"; Int 0; Int 1])%nat /\
  exists e : Exception,
    DictType_get (Int 5) [String "a"; Int 0; Int 1] Samples.heap0 = Raise e /\
    exc_type e = TypeError /\
    exc_message (fun _ => "") e = "items() expected at most 2 arguments, got 3".
Proof.
  assert (Hlen : (length [String "a"; Int 0; Int 1] = 0
                  \/ 2 < length [String "a"; Int 0; Int 1])%nat) by (right; simpl; lia).
  split; [exact Hlen |].
  destruct (DictType_get_arity (Int 5) [String "a"; Int 0; Int 1] Samples.heap0 Hlen)
    as (e & Hrun & Hty & _ & Hmsg).
  exists e. split; [exact Hrun |]. split; [exact Hty |].
  rewrite (Hmsg ltac:(simpl; lia)). vm_compute. reflexivity.
Defined.


(** ** The representation of a Dict *)

Section ReprFacts.
Variable ReprAsString : Object -> Heap -> result string.

Lemma M__repr___loop_joins (show : Object -> string) (h : Heap)
    (items : list (Object * Object)) :
  (forall k v, (k, v) ∈ items ->
     ReprAsString k h = Ok (show k) /\ ReprAsString v h = Ok (show v)) ->
  forall (out : string) (spacer : bool),
    M__repr___loop ReprAsString items out spacer h =
    Ok (match items with
        | [] => out
        | _ => (out ++ (if spacer then ", " else ""))
               ++ String.concat ", " (map (repr_entry show) items)
        end).
Proof.
  induction items as [|[k v] rest IH]; intros Hall out spacer; [reflexivity |].
  destruct (Hall k v) as [Hk Hv]; [left |].
  assert (Hrest : forall k' v', (k', v') ∈ rest ->
            ReprAsString k' h = Ok (show k') /\ ReprAsString v' h = Ok (show v')).
  { intros k' v' Hin. apply Hall. right. exact Hin. }
  cbn [M__repr___loop]. rewrite Hk, Hv, (IH Hrest). f_equal.
  destruct rest as [|kv rest'].
  - cbn [map String.concat]. unfold repr_entry. cbn [fst snd].
    destruct spacer; rewrite ?append_empty_r, ?append_assoc; reflexivity.
  - change (String.concat ", " (map (repr_entry show) ((k, v) :: kv :: rest')))
      with (((show k ++ ": ") ++ show v) ++ ", "
            ++ String.concat ", " (map (repr_entry show) (kv :: rest'))).
    destruct spacer; rewrite ?append_empty_r, ?append_assoc; reflexivity.
Qed.

Lemma M__repr___loop_fails (h : Heap) (items : list (Object * Object)) :
  (exists k v, (k, v) ∈ items /\
     ((forall s, ReprAsString k h ≠ Ok s) \/ (forall s, ReprAsString v h ≠ Ok s))) ->
  forall out spacer s, M__repr___loop ReprAsString items out spacer h ≠ Ok s.
Proof.
  induction items as [|[k0 v0] rest IH]; intros (k & v & Hin & Hbad) out spacer s.
  - inversion Hin.
  - cbn [M__repr___loop].
    destruct (ReprAsString k0 h) as [ks| |] eqn:Hk0; try discriminate.
    destruct (ReprAsString v0 h) as [vs| |] eqn:Hv0; try discriminate.
    apply elem_of_cons in Hin as [[= -> ->] | Hin].
    + destruct Hbad as [Hb | Hb]; exfalso; [exact (Hb _ Hk0) | exact (Hb _ Hv0)].
    + apply IH. eauto.
Qed.

Lemma M__repr___loop_first_failure (h : Heap) (e : Exception)
    (pre post : list (Object * Object)) (k v : Object) :
  (forall k' v', (k', v') ∈ pre ->
     (exists s, ReprAsString k' h = Ok s) /\ (exists s, ReprAsString v' h = Ok s)) ->
  (ReprAsString k h = Raise e \/
   (exists s, ReprAsString k h = Ok s) /\ ReprAsString v h = Raise e) ->
  forall out spacer,
    M__repr___loop ReprAsString (pre ++ (k, v) :: post)%list out spacer h = Raise e.
Proof.
  induction pre as [|[k0 v0] pre IH]; intros Hpre Hfail out spacer.
  - cbn [app M__repr___loop].
    destruct Hfail as [-> | [[s ->] ->]]; reflexivity.
  - cbn [app M__repr___loop].
    destruct (Hpre k0 v0) as [[s1 ->] [s2 ->]]; [left |].
    apply IH; [| exact Hfail]. intros k' v' Hin. apply Hpre. right. exact Hin.
Qed.

(** X6: when every key and value has a representation, [M__repr__] is an
    opening brace, the entries [key: value] in the order of the loop with
    a comma and a blank between two of them, and a closing brace; an empty
    Dict gives [{}].  [M__str__] answers the same. *)
Theorem M__repr___joins (show : Object -> string) (items : list (Object * Object))
    (a : Dict) (h : Heap) :
  (forall k v, (k, v) ∈ items ->
     ReprAsString k h = Ok (show k) /\ ReprAsString v h = Ok (show v)) ->
  M__repr__ ReprAsString items a h =
    Ok (String (("{" ++ String.concat ", " (map (repr_entry show) items)) ++ "}")) /\
  M__str__ ReprAsString items a h = M__repr__ ReprAsString items a h /\
  (items = [] -> M__repr__ ReprAsString items a h = Ok (String "{}")).
Proof.
  intros Hall.
  assert (Hrun : M__repr__ ReprAsString items a h =
                 Ok (String (("{" ++ String.concat ", " (map (repr_entry show) items))
                             ++ "}"))).
  { unfold M__repr__. rewrite (M__repr___loop_joins show h items Hall).
    destruct items; reflexivity. }
  split; [exact Hrun |]. split; [reflexivity |].
  intros ->. exact Hrun.
Qed.

(** X7: a key or a value without a representation makes [M__repr__] fail,
    in whatever order the loop runs; it fails with the first error the
    loop meets, a key being looked at before its value. *)
Theorem M__repr___aborts (items : list (Object * Object)) (a : Dict) (h : Heap) :
  ((exists k v, (k, v) ∈ items /\
      ((forall s, ReprAsString k h ≠ Ok s) \/ (forall s, ReprAsString v h ≠ Ok s))) ->
   forall r, M__repr__ ReprAsString items a h ≠ Ok r) /\
  (forall (e : Exception) (pre post : list (Object * Object)) (k v : Object),
     items = (pre ++ (k, v) :: post)%list ->
     (forall k' v', (k', v') ∈ pre ->
        (exists s, ReprAsString k' h = Ok s) /\ (exists s, ReprAsString v' h = Ok s)) ->
     (ReprAsString k h = Raise e \/
      (exists s, ReprAsString k h = Ok s) /\ ReprAsString v h = Raise e) ->
     M__repr__ ReprAsString items a h = Raise e).
Proof.
  split.
  - intros Hbad r. unfold M__repr__.
    pose proof (M__repr___loop_fails h items Hbad "{" false) as Hno.
    destruct (M__repr___loop ReprAsString items "{" false h) as [s| |];
      [exfalso; exact (Hno s eq_refl) | discriminate | discriminate].
  - intros e pre post k v -> Hpre Hfail. unfold M__repr__.
    rewrite (M__repr___loop_first_failure h e pre post k v Hpre Hfail). reflexivity.
Qed.
End ReprFacts.

Lemma M__repr___joins_witness :
  let show := fun o => match SampleRepr.ReprAsString o Samples.heap0 with
                       | Ok s => s
                       | _ => ""
                       end in
  let items := [(String "a", Int 1); (String "b", None_)] in
  (forall k v, (k, v) ∈ items ->
     SampleRepr.ReprAsString k Samples.heap0 = Ok (show k) /\
     SampleRepr.ReprAsString v Samples.heap0 = Ok (show v)) /\
  M__repr__ SampleRepr.ReprAsString items 2 Samples.heap0
  = Ok (String "{'a': 1, 'b': None}").
Proof.
  intros show items.
  assert (Hall : forall k v, (k, v) ∈ items ->
            SampleRepr.ReprAsString k Samples.heap0 = Ok (show k) /\
            SampleRepr.ReprAsString v Samples.heap0 = Ok (show v)).
  { intros k v Hin. unfold items in Hin.
    apply elem_of_cons in Hin as [[= -> ->] | Hin]; [split; reflexivity |].
    apply elem_of_cons in Hin as [[= -> ->] | Hin]; [split; reflexivity |].
    inversion Hin. }
  split; [exact Hall |].
  destruct (M__repr___joins SampleRepr.ReprAsString show items 2 Samples.heap0 Hall)
    as [Hrun _].
  rewrite Hrun. vm_compute. reflexivity.
Defined.

Lemma M__repr___aborts_witness :
  let items := [(String "a", Int 1); (String "b", DictRef 2); (Int 3, Nil)] in
  (exists k v, (k, v) ∈ items /\
     ((forall s, SampleRepr.ReprAsString k Samples.heap0 ≠ Ok s) \/
      (forall s, SampleRepr.ReprAsString v Samples.heap0 ≠ Ok s))) /\
  (forall r, M__repr__ SampleRepr.ReprAsString items 1 Samples.heap0 ≠ Ok r) /\
  M__repr__ SampleRepr.ReprAsString items 1 Samples.heap0
  = Raise (ExceptionNewf TypeError "no representation" []).
Proof.
  intros items.
  assert (Hbad : exists k v, (k, v) ∈ items /\
            ((forall s, SampleRepr.ReprAsString k Samples.heap0 ≠ Ok s) \/
             (forall s, SampleRepr.ReprAsString v Samples.heap0 ≠ Ok s))).
  { exists (String "b"), (DictRef 2). split.
    - unfold items. right. left.
    - right. intros s. discriminate. }
  destruct (M__repr___aborts SampleRepr.ReprAsString items 1 Samples.heap0)
    as [Hany Hfirst].
  split; [exact Hbad |]. split; [exact (Hany Hbad) |].
  apply (Hfirst _ [(String "a", Int 1)] [(Int 3, Nil)] (String "b") (DictRef 2)
           eq_refl).
  - intros k' v' Hin. apply elem_of_cons in Hin as [[= -> ->] | Hin];
      [split; eexists; reflexivity | inversion Hin].
  - right. split; [eexists; reflexivity | reflexivity].
Defined.

(** ** The store stays well formed *)








Lemma NewFunction_run (code : loc) (globals : Dict) (qualname : string)
    (co : Code.t) (h : Heap) :
  codes h !! code = Some co ->
  NewFunction code globals qualname h =
    (Ok (fresh (dom (functions h))),
     mkHeap (<[fresh (dom (dicts h)) := ∅]> (dicts h)) (codes h)
       (<[fresh (dom (functions h)) :=
            {| Function.Code := code;
               Function.Globals := globals;
               Function.Defaults := [];
               Function.KwDefaults := None;
               Function.Closure := [];
               Function.Doc :=
                 match Code.Consts co with
                 | String s :: _ => String s
                 | _ => None_
                 end;
               Function.Name := Code.Name co;
               Function.Dict := fresh (dom (dicts h));
               Function.Weakreflist := [];
               Function.Module_ :=
                 default None_ (contents h globals !! String "__name__");
               Function.Annotations := None;
               Function.Qualname :=
                 if String.eqb qualname "" then Code.Name co else qualname |}]>
          (functions h))).
Proof.
  intros Hc.
  unfold NewFunction, mbind, M_bind, bind, reading, deref_Code. rewrite Hc.
  rewrite map_index_String. unfold make_Dict, new_Function, set_functions, set_dicts.
  destruct (Code.Consts co) as [|[] ?];
    destruct (contents h globals !! String "__name__"); reflexivity.
Qed.



(** ** More on Dict equality *)

Section EqualityOrder.
Variable Eq : Object -> Object -> Heap -> result Object.

(** The equality dispatch answers every question with a boolean. *)
Hypothesis Eq_decides : forall a b h, exists t : bool, Eq a b h = Ok (Bool t).

Lemma Eq_decides_boolean :
  forall a b h r, Eq a b h = Ok r -> exists t : bool, r = Bool t.
Proof.
  intros a b h r Hr. destruct (Eq_decides a b h) as [t Ht].
  rewrite Ht in Hr. inversion Hr. eauto.
Qed.

Lemma M__eq___loop_decides (b : Dict) (h : Heap) (items : list (Object * Object)) :
  (forall k av, (k, av) ∈ items -> hashable k = true) ->
  exists t : bool, M__eq___loop Eq b items h = Ok (Bool t).
Proof.
  induction items as [|[k av] rest IH]; intros Hh; [simpl; eauto |].
  simpl. unfold map_index. rewrite (Hh k av) by left.
  destruct (contents h b !! k) as [bv|]; [| eauto].
  destruct (Eq_decides av bv h) as [t ->].
  destruct (decide (Bool t = False_)); [eauto |].
  apply IH. intros k' av' Hin. apply (Hh k' av'). right. exact Hin.
Qed.

Lemma M__eq___decides (items : list (Object * Object)) (a b : Dict) (h : Heap) :
  wf_heap h -> range_of h a items ->
  exists t : bool,
    M__eq__ Eq items a (DictRef b) h = Ok (Bool t) /\
    (t = true <->
     map_len h a = map_len h b /\
     forall k av, contents h a !! k = Some av ->
       exists bv, contents h b !! k = Some bv /\ compare_equal Eq h av bv).
Proof.
  intros Hwf Hr.
  destruct (decide (map_len h a = map_len h b)) as [Hlen | Hlen].
  - pose proof (M__eq___same_length Eq Eq_decides_boolean items a b h Hwf Hr Hlen)
      as Hiff.
    unfold M__eq__ in *. cbn [as_Dict] in *.
    destruct (decide (map_len h a ≠ map_len h b)) as [? | _]; [contradiction |].
    destruct (M__eq___loop_decides b h items (range_of_hashable h a items Hwf Hr))
      as [t Ht].
    exists t. split; [exact Ht |]. rewrite Ht in Hiff. split.
    + intros ->. split; [exact Hlen | apply Hiff; reflexivity].
    + intros [_ Hall]. apply Hiff in Hall. inversion Hall. reflexivity.
  - exists false. unfold M__eq__. cbn [as_Dict].
    destruct (decide (map_len h a ≠ map_len h b)) as [_ | ?]; [| contradiction].
    split; [reflexivity |]. split; [discriminate | intros [? _]; contradiction].
Qed.

(** X9: when the equality dispatch answers every question with a boolean,
    the answer of [M__eq__] does not depend on the order in which the loop
    runs through the entries. *)
Theorem M__eq___order_independent (items1 items2 : list (Object * Object))
    (a : Dict) (other : Object) (h : Heap) :
  wf_heap h -> range_of h a items1 -> range_of h a items2 ->
  M__eq__ Eq items1 a other h = M__eq__ Eq items2 a other h /\
  M__ne__ Eq items1 a other h = M__ne__ Eq items2 a other h.
Proof.
  intros Hwf Hr1 Hr2.
  assert (Heq : M__eq__ Eq items1 a other h = M__eq__ Eq items2 a other h).
  { destruct other as [| | | | | | | | |b]; try reflexivity.
    destruct (M__eq___decides items1 a b h Hwf Hr1) as (t1 & -> & H1).
    destruct (M__eq___decides items2 a b h Hwf Hr2) as (t2 & -> & H2).
    do 2 f_equal. destruct t1, t2; try reflexivity.
    - symmetry. apply H2, H1. reflexivity.
    - apply H1, H2. reflexivity. }
  split; [exact Heq |]. unfold M__ne__. rewrite Heq. reflexivity.
Qed.

(** The dispatch is symmetric. *)
Hypothesis Eq_symmetric : forall a b h, Eq a b h = Eq b a h.

Lemma same_entries_symmetric (h : Heap) (a b : Dict) :
  map_len h a = map_len h b ->
  (forall k av, contents h a !! k = Some av ->
     exists bv, contents h b !! k = Some bv /\ compare_equal Eq h av bv) ->
  forall k bv, contents h b !! k = Some bv ->
    exists av, contents h a !! k = Some av /\ compare_equal Eq h bv av.
Proof.
  unfold map_len. intros Hlen Hall k bv Hb.
  assert (Hsub : dom (contents h a) ⊆ dom (contents h b)).
  { intros i Hi. apply elem_of_dom in Hi as [av Hav].
    destruct (Hall i av Hav) as (bv' & Hbv' & _). apply elem_of_dom. eauto. }
  assert (Hdom : dom (contents h a) = dom (contents h b)).
  { apply set_subseteq_size_eq; [exact Hsub |]. rewrite !size_dom. lia. }
  assert (Hk : k ∈ dom (contents h a)).
  { rewrite Hdom. apply elem_of_dom. eauto. }
  apply elem_of_dom in Hk as [av Hav]. exists av. split; [exact Hav |].
  destruct (Hall k av Hav) as (bv' & Hbv' & Heq).
  assert (bv' = bv) by congruence. subst bv'.
  unfold compare_equal in *. rewrite Eq_symmetric. exact Heq.
Qed.

(** X10: when the equality dispatch is symmetric and answers every
    question with a boolean, Dict equality is symmetric: [a == b] and
    [b == a] give the same answer, and so do [a != b] and [b != a]. *)
Theorem M__eq___symmetric (items_a items_b : list (Object * Object))
    (a b : Dict) (h : Heap) :
  wf_heap h -> range_of h a items_a -> range_of h b items_b ->
  M__eq__ Eq items_a a (DictRef b) h = M__eq__ Eq items_b b (DictRef a) h /\
  M__ne__ Eq items_a a (DictRef b) h = M__ne__ Eq items_b b (DictRef a) h.
Proof.
  intros Hwf Hra Hrb.
  assert (Heq : M__eq__ Eq items_a a (DictRef b) h = M__eq__ Eq items_b b (DictRef a) h).
  { destruct (M__eq___decides items_a a b h Hwf Hra) as (t1 & -> & H1).
    destruct (M__eq___decides items_b b a h Hwf Hrb) as (t2 & -> & H2).
    do 2 f_equal. destruct t1, t2; try reflexivity.
    - symmetry. apply H2. destruct H1 as [H1 _]. destruct (H1 eq_refl) as [Hlen Hall].
      split; [congruence |]. exact (same_entries_symmetric h a b Hlen Hall).
    - apply H1. destruct H2 as [H2 _]. destruct (H2 eq_refl) as [Hlen Hall].
      split; [congruence |]. exact (same_entries_symmetric h b a Hlen Hall). }
  split; [exact Heq |]. unfold M__ne__. rewrite Heq. reflexivity.
Qed.
End EqualityOrder.

Section CopyEquality.
Variable Eq : Object -> Object -> Heap -> result Object.
Hypothesis Eq_boolean :
  forall a b h r, Eq a b h = Ok r -> exists t : bool, r = Bool t.

End CopyEquality.

Lemma SampleEq_decides :
  forall a b h, exists t : bool, SampleEq.Eq a b h = Ok (Bool t).
Proof. intros a b h. eexists. reflexivity. Qed.

Lemma SampleEq_symmetric : forall a b h, SampleEq.Eq a b h = SampleEq.Eq b a h.
Proof.
  intros a b h. unfold SampleEq.Eq. do 2 f_equal.
  apply bool_decide_ext. split; congruence.
Qed.

Lemma M__eq___order_independent_witness :
  let items := map_to_list (contents Samples.heap0 1) in
  (forall a b h, exists t : bool, SampleEq.Eq a b h = Ok (Bool t)) /\
  wf_heap Samples.heap0 /\ range_of Samples.heap0 1 items /\
  range_of Samples.heap0 1 (reverse items) /\
  M__eq__ SampleEq.Eq items 1 (DictRef 1) Samples.heap0
  = M__eq__ SampleEq.Eq (reverse items) 1 (DictRef 1) Samples.heap0.
Proof.
  intros items.
  assert (Hwf : wf_heap Samples.heap0).
  { unfold wf_heap. apply (bool_decide_unpack _). vm_compute. exact I. }
  assert (Hr : range_of Samples.heap0 1 items) by (unfold range_of; reflexivity).
  assert (Hr' : range_of Samples.heap0 1 (reverse items)).
  { unfold range_of. apply reverse_Permutation. }
  split; [exact SampleEq_decides |].
  split; [exact Hwf |]. split; [exact Hr |]. split; [exact Hr' |].
  exact (proj1 (M__eq___order_independent SampleEq.Eq SampleEq_decides items
                  (reverse items) 1 (DictRef 1) Samples.heap0 Hwf Hr Hr')).
Defined.

Lemma M__eq___symmetric_witness :
  let items1 := map_to_list (contents Samples.heap0 1) in
  let items3 := map_to_list (contents Samples.heap0 3) in
  (forall a b h, exists t : bool, SampleEq.Eq a b h = Ok (Bool t)) /\
  (forall a b h, SampleEq.Eq a b h = SampleEq.Eq b a h) /\
  wf_heap Samples.heap0 /\ range_of Samples.heap0 1 items1 /\
  range_of Samples.heap0 3 items3 /\
  M__eq__ SampleEq.Eq items1 1 (DictRef 3) Samples.heap0
  = M__eq__ SampleEq.Eq items3 3 (DictRef 1) Samples.heap0.
Proof.
  intros items1 items3.
  assert (Hwf : wf_heap Samples.heap0).
  { unfold wf_heap. apply (bool_decide_unpack _). vm_compute. exact I. }
  assert (Hr1 : range_of Samples.heap0 1 items1) by (unfold range_of; reflexivity).
  assert (Hr3 : range_of Samples.heap0 3 items3) by (unfold range_of; reflexivity).
  split; [exact SampleEq_decides |]. split; [exact SampleEq_symmetric |].
  split; [exact Hwf |]. split; [exact Hr1 |]. split; [exact Hr3 |].
  exact (proj1 (M__eq___symmetric SampleEq.Eq SampleEq_decides SampleEq_symmetric
                  items1 items3 1 3 Samples.heap0 Hwf Hr1 Hr3)).
Defined.


(** ** More on Function objects *)

Lemma update_Function_run (fp : loc) (change : Function.t -> Function.t)
    (f : Function.t) (h : Heap) :
  functions h !! fp = Some f ->
  update_Function fp change h =
    (Ok tt, set_functions h (<[fp := change f]> (functions h))).
Proof. intros Hf. unfold update_Function. rewrite Hf. reflexivity. Qed.

Lemma code_Fset_run (fp cp : loc) (f : Function.t) (c : Code.t) (h : Heap) :
  functions h !! fp = Some f -> codes h !! cp = Some c ->
  code_Fset (FunctionRef fp) (CodeRef cp) h =
    if decide (length (Code.Freevars c) ≠ length (Function.Closure f))
    then (Raise (ExceptionNewf ValueError
                   "%s() requires a code object with %d free vars, not %d"
                   [FStr (Function.Name f);
                    FInt (Z.of_nat (length (Function.Closure f)));
                    FInt (Z.of_nat (length (Code.Freevars c)))]), h)
    else (Ok tt, set_functions h (<[fp := Function.set_Code f cp]> (functions h))).
Proof.
  intros Hf Hc. unfold code_Fset. simpl.
  unfold mbind, M_bind, bind, reading, deref_Code, deref_Function. rewrite Hc, Hf.
  destruct (decide (length (Code.Freevars c) ≠ length (Function.Closure f)));
    reflexivity.
Qed.

(** X12: the function [NewFunction] returns has a new, empty map of its
    own for its attributes, which is not the globals, and has no
    defaults, keyword defaults, closure or annotations; its printed form
    is [function NAME()] with the name of the code. *)
Theorem NewFunction_fresh (code : loc) (globals : Dict) (qualname : string)
    (co : Code.t) (h : Heap) :
  codes h !! code = Some co ->
  exists (fp : loc) (f : Function.t) (h' : Heap),
    NewFunction code globals qualname h = (Ok fp, h') /\
    functions h' !! fp = Some f /\
    dicts h !! GetDict f = None /\
    dicts h' !! GetDict f = Some ∅ /\
    (is_Some (dicts h !! globals) -> GetDict f ≠ Function.Globals f) /\
    Function.Defaults f = [] /\ Function.Closure f = [] /\
    Function.KwDefaults f = None /\ Function.Annotations f = None /\
    Function_String f = ("function " ++ Code.Name co) ++ "()".
Proof.
  intros Hc. eexists _, _, _.
  split; [exact (NewFunction_run code globals qualname co h Hc) |].
  split; [apply lookup_insert_eq |]. unfold GetDict. simpl.
  split; [apply make_Dict_fresh |].
  split; [apply lookup_insert_eq |].
  split; [| repeat split].
  intros [m Hg] E. pose proof (make_Dict_fresh h) as Hf. rewrite E in Hf. congruence.
Qed.

Lemma NewFunction_fresh_witness :
  codes Samples.heap0 !! 1%positive = Some (Code.mk "foo" [String "doc of foo"; Int 0] []) /\
  exists (fp : loc) (f : Function.t) (h' : Heap),
    NewFunction 1 3 "" Samples.heap0 = (Ok fp, h') /\
    functions h' !! fp = Some f /\
    dicts h' !! GetDict f = Some ∅ /\
    Function_String f = "function foo()".
Proof.
  assert (Hc : codes Samples.heap0 !! 1%positive =
               Some (Code.mk "foo" [String "doc of foo"; Int 0] []))
    by (vm_compute; reflexivity).
  split; [exact Hc |].
  destruct (NewFunction_fresh 1 3 "" _ Samples.heap0 Hc)
    as (fp & f & h' & Hrun & Hf & _ & Hd & _ & _ & _ & _ & _ & Hs).
  exists fp, f, h'. repeat (split; [assumption |]). exact Hs.
Defined.

(** X13: a function fresh from [NewFunction] has no closure, so its
    [__code__] can be replaced by exactly the code units without free
    variables; any other unit is turned down with a ValueError. *)
Theorem NewFunction_then_code_Fset (code cp : loc) (globals : Dict)
    (qualname : string) (co c : Code.t) (h : Heap) :
  codes h !! code = Some co -> codes h !! cp = Some c ->
  exists (fp : loc) (h' : Heap),
    NewFunction code globals qualname h = (Ok fp, h') /\
    (Code.GetNumFree c = 0 ->
     exists h'',
       code_Fset (FunctionRef fp) (CodeRef cp) h' = (Ok tt, h'') /\
       code_Fget (FunctionRef fp) h'' = Ok (CodeRef cp)) /\
    (Code.GetNumFree c ≠ 0 ->
     exists e,
       code_Fset (FunctionRef fp) (CodeRef cp) h' = (Raise e, h') /\
       exc_type e = ValueError /\
       code_Fget (FunctionRef fp) h' = Ok (CodeRef code)).
Proof.
  intros Hco Hc. eexists _, _.
  split; [exact (NewFunction_run code globals qualname co h Hco) |].
  match goal with
  | |- context [code_Fset _ _ ?hh] => set (h' := hh)
  end.
  assert (Hc' : codes h' !! cp = Some c) by exact Hc.
  assert (Hf : exists f, functions h' !! fresh (dom (functions h)) = Some f /\
                         Function.Closure f = [] /\ Function.Code f = code).
  { eexists. split; [apply lookup_insert_eq |]. split; reflexivity. }
  destruct Hf as (f & Hf & Hcl & Hcode).
  pose proof (code_Fset_run _ cp f c h' Hf Hc') as Hrun. rewrite Hcl in Hrun.
  unfold Code.GetNumFree. split.
  - intros H0. rewrite Hrun.
    destruct (decide (length (Code.Freevars c) ≠ length (@nil Object)));
      [simpl in *; contradiction |].
    eexists. split; [reflexivity |].
    unfold code_Fget, deref_Function. simpl. rewrite lookup_insert_eq. reflexivity.
  - intros H0. rewrite Hrun.
    destruct (decide (length (Code.Freevars c) ≠ length (@nil Object)));
      [| simpl in *; lia].
    eexists. split; [reflexivity |]. split; [reflexivity |].
    unfold code_Fget, deref_Function. cbn [as_Function]. rewrite Hf, Hcode. reflexivity.
Qed.

Lemma NewFunction_then_code_Fset_witness :
  codes Samples.heap0 !! 1%positive = Some (Code.mk "foo" [String "doc of foo"; Int 0] []) /\
  codes Samples.heap0 !! 2%positive = Some (Code.mk "inner" [Int 0] [String "x"]) /\
  exists (fp : loc) (h' : Heap) (e : Exception),
    NewFunction 1 3 "" Samples.heap0 = (Ok fp, h') /\
    code_Fset (FunctionRef fp) (CodeRef 2) h' = (Raise e, h') /\
    exc_type e = ValueError.
Proof.
  assert (H1 : codes Samples.heap0 !! 1%positive =
               Some (Code.mk "foo" [String "doc of foo"; Int 0] []))
    by (vm_compute; reflexivity).
  assert (H2 : codes Samples.heap0 !! 2%positive =
               Some (Code.mk "inner" [Int 0] [String "x"]))
    by (vm_compute; reflexivity).
  split; [exact H1 |]. split; [exact H2 |].
  destruct (NewFunction_then_code_Fset 1 2 3 "" _ _ Samples.heap0 H1 H2)
    as (fp & h' & Hrun & _ & Hbad).
  destruct Hbad as (e & Hset & Hty & _); [discriminate |].
  exists fp, h', e. auto.
Defined.

(** X14: two functions made from one code unit are two objects that share
    the code and the globals, each with a map of its own for its
    attributes: a write to the attributes of the first does not show in
    those of the second. *)
Theorem NewFunction_twice (code : loc) (globals : Dict) (q1 q2 : string)
    (co : Code.t) (h : Heap) :
  codes h !! code = Some co ->
  exists (fp1 fp2 : loc) (f1 f2 : Function.t) (h1 h2 : Heap),
    NewFunction code globals q1 h = (Ok fp1, h1) /\
    NewFunction code globals q2 h1 = (Ok fp2, h2) /\
    fp1 ≠ fp2 /\
    functions h2 !! fp1 = Some f1 /\ functions h2 !! fp2 = Some f2 /\
    Function.Code f1 = Function.Code f2 /\
    Function.Globals f1 = Function.Globals f2 /\
    GetDict f1 ≠ GetDict f2 /\
    (forall k v, contents (M__setitem__ (GetDict f1) k v h2).2 (GetDict f2) = ∅).
Proof.
  intros Hc.
  pose proof (NewFunction_run code globals q1 co h Hc) as H1.
  set (h1 := (NewFunction code globals q1 h).2).
  assert (Hh1 : h1 = (NewFunction code globals q1 h).2) by reflexivity.
  rewrite H1 in Hh1. simpl in Hh1.
  assert (Hc1 : codes h1 !! code = Some co) by (rewrite Hh1; exact Hc).
  pose proof (NewFunction_run code globals q2 co h1 Hc1) as H2.
  assert (Hfp : fresh (dom (functions h)) ≠ fresh (dom (functions h1))).
  { intros E. pose proof (is_fresh (dom (functions h1))) as Hfr.
    rewrite <- E in Hfr. apply Hfr. rewrite Hh1. simpl.
    apply elem_of_dom. rewrite lookup_insert_eq. eauto. }
  assert (Hd : fresh (dom (dicts h)) ≠ fresh (dom (dicts h1))).
  { intros E. pose proof (is_fresh (dom (dicts h1))) as Hfr.
    rewrite <- E in Hfr. apply Hfr. rewrite Hh1. simpl.
    apply elem_of_dom. rewrite lookup_insert_eq. eauto. }
  eexists _, _, _, _, h1, _.
  split; [rewrite H1, Hh1; reflexivity |].
  split; [exact H2 |].
  split; [exact Hfp |].
  split; [simpl; rewrite lookup_insert_ne by (intros E; apply Hfp; symmetry; exact E);
          rewrite Hh1; simpl; apply lookup_insert_eq |].
  split; [apply lookup_insert_eq |].
  unfold GetDict. simpl.
  split; [reflexivity |]. split; [reflexivity |]. split; [exact Hd |].
  intros k v.
  match goal with
  | |- contents (M__setitem__ ?d k v ?hh).2 ?d2 = ∅ =>
      destruct (M__setitem__ d k v hh) as [r h3] eqn:Hset;
      assert (Hfr : dicts h3 !! d2 = dicts hh !! d2)
  end.
  { unfold M__setitem__, mbind, M_bind, bind in Hset.
    destruct (map_assign (fresh (dom (dicts h))) k v _) as [r' h3'] eqn:Hm.
    pose proof (map_assign_frame _ (fresh (dom (dicts h1))) k v _ h3' r' Hm Hd) as Hf.
    destruct r'; inversion Hset; subst; exact Hf. }
  simpl. unfold contents. rewrite Hfr. simpl. rewrite lookup_insert_eq. reflexivity.
Qed.

Lemma NewFunction_twice_witness :
  codes Samples.heap0 !! 1%positive = Some (Code.mk "foo" [String "doc of foo"; Int 0] []) /\
  exists (fp1 fp2 : loc) (h1 h2 : Heap),
    NewFunction 1 3 "" Samples.heap0 = (Ok fp1, h1) /\
    NewFunction 1 3 "bar" h1 = (Ok fp2, h2) /\
    fp1 ≠ fp2.
Proof.
  assert (Hc : codes Samples.heap0 !! 1%positive =
               Some (Code.mk "foo" [String "doc of foo"; Int 0] []))
    by (vm_compute; reflexivity).
  split; [exact Hc |].
  destruct (NewFunction_twice 1 3 "" "bar" _ Samples.heap0 Hc)
    as (fp1 & fp2 & f1 & f2 & h1 & h2 & H1 & H2 & Hne & _).
  exists fp1, fp2, h1, h2. auto.
Defined.

(** ** The property accessors *)

(** X15: the setters of [__name__] and [__qualname__] take text only,
    raising a TypeError and leaving the store alone otherwise.  Each
    changes what its getter returns and nothing else of the function: a
    renamed function keeps its qualified name and its code, and its
    printed form follows the new name. *)
Theorem name_qualname_accessors (fp : loc) (f : Function.t) (h : Heap) :
  functions h !! fp = Some f ->
  (forall s : string,
     exists h',
       name_Fset (FunctionRef fp) (String s) h = (Ok tt, h') /\
       name_Fget (FunctionRef fp) h' = Ok (String s) /\
       qualname_Fget (FunctionRef fp) h' = Ok (String (Function.Qualname f)) /\
       code_Fget (FunctionRef fp) h' = Ok (CodeRef (Function.Code f)) /\
       functions h' !! fp = Some (set_Name f s) /\
       Function_String (set_Name f s) = ("function " ++ s) ++ "()" /\
       dicts h' = dicts h /\ codes h' = codes h) /\
  (forall s : string,
     exists h',
       qualname_Fset (FunctionRef fp) (String s) h = (Ok tt, h') /\
       qualname_Fget (FunctionRef fp) h' = Ok (String s) /\
       name_Fget (FunctionRef fp) h' = Ok (String (Function.Name f)) /\
       functions h' !! fp = Some (set_Qualname f s) /\
       Function_String (set_Qualname f s) = Function_String f /\
       dicts h' = dicts h /\ codes h' = codes h) /\
  (forall value : Object, as_String value = None ->
     (exists e, name_Fset (FunctionRef fp) value h = (Raise e, h) /\
                exc_type e = TypeError) /\
     (exists e, qualname_Fset (FunctionRef fp) value h = (Raise e, h) /\
                exc_type e = TypeError)).
Proof.
  intros Hf. split; [| split].
  - intros s. eexists. unfold name_Fset. cbn [as_Function as_String].
    split; [exact (update_Function_run fp _ f h Hf) |].
    unfold name_Fget, qualname_Fget, code_Fget, deref_Function. cbn [as_Function].
    simpl. rewrite !lookup_insert_eq. repeat split.
  - intros s. eexists. unfold qualname_Fset. cbn [as_Function as_String].
    split; [exact (update_Function_run fp _ f h Hf) |].
    unfold name_Fget, qualname_Fget, deref_Function. cbn [as_Function].
    simpl. rewrite !lookup_insert_eq. repeat split.
  - intros value Hv. unfold name_Fset, qualname_Fset. cbn [as_Function].
    rewrite Hv. split; eexists; split; reflexivity.
Qed.

Lemma name_qualname_accessors_witness :
  is_Some (functions Samples.heap0 !! 1%positive) /\
  exists h',
    name_Fset (FunctionRef 1) (String "g") Samples.heap0 = (Ok tt, h') /\
    name_Fget (FunctionRef 1) h' = Ok (String "g") /\
    qualname_Fget (FunctionRef 1) h' = Ok (String "foo").
Proof.
  assert (Hf : is_Some (functions Samples.heap0 !! 1%positive)).
  { apply (bool_decide_unpack _). vm_compute. exact I. }
  split; [exact Hf |]. destruct Hf as [f Hf].
  destruct (name_qualname_accessors 1 f Samples.heap0 Hf) as [Hname _].
  destruct (Hname "g") as (h' & Hset & Hget & Hq & _).
  exists h'. split; [exact Hset |]. split; [exact Hget |].
  rewrite Hq. vm_compute in Hf. inversion Hf. reflexivity.
Defined.

(** X16: the setter of [__dict__] takes a Dict only and stores the very
    map it is given, not a copy: what is written to that map afterwards
    is read through the function.  The map the function held before is
    left as it was. *)
Theorem dict_Fset_shares (fp : loc) (f : Function.t) (h : Heap) :
  functions h !! fp = Some f ->
  (forall d : Dict,
     exists h',
       dict_Fset (FunctionRef fp) (DictRef d) h = (Ok tt, h') /\
       dict_Fget (FunctionRef fp) h' = Ok (DictRef d) /\
       functions h' !! fp = Some (set_Dict f d) /\
       GetDict (set_Dict f d) = d /\
       dicts h' = dicts h /\
       (forall k v h'',
          M__setitem__ d k v h' = (Ok None_, h'') ->
          dict_Fget (FunctionRef fp) h'' = Ok (DictRef d) /\
          contents h'' d !! k = Some v)) /\
  (forall value : Object, as_Dict value = None ->
     exists e, dict_Fset (FunctionRef fp) value h = (Raise e, h) /\
               exc_type e = TypeError /\
               dict_Fget (FunctionRef fp) h = Ok (DictRef (Function.Dict f))).
Proof.
  intros Hf. split.
  - intros d. eexists. unfold dict_Fset. cbn [as_Function as_Dict].
    split; [exact (update_Function_run fp _ f h Hf) |].
    unfold dict_Fget, deref_Function. cbn [as_Function]. simpl.
    rewrite !lookup_insert_eq.
    split; [reflexivity |]. split; [reflexivity |]. split; [reflexivity |].
    split; [reflexivity |].
    intros k v h'' Hset.
    unfold M__setitem__, mbind, M_bind, bind, map_assign in Hset. simpl in Hset.
    destruct (hashable k); [| discriminate].
    destruct (dicts h !! d) as [m|] eqn:Hd; [| discriminate].
    inversion Hset; subst h''. simpl. rewrite lookup_insert_eq.
    split; [reflexivity |]. unfold contents. simpl.
    rewrite lookup_insert_eq. simpl. apply lookup_insert_eq.
  - intros value Hv. unfold dict_Fset, dict_Fget, deref_Function. cbn [as_Function].
    rewrite Hv, Hf. eexists. repeat split.
Qed.

Lemma dict_Fset_shares_witness :
  is_Some (functions Samples.heap0 !! 1%positive) /\
  exists h',
    dict_Fset (FunctionRef 1) (DictRef 3) Samples.heap0 = (Ok tt, h') /\
    dict_Fget (FunctionRef 1) h' = Ok (DictRef 3).
Proof.
  assert (Hf : is_Some (functions Samples.heap0 !! 1%positive)).
  { apply (bool_decide_unpack _). vm_compute. exact I. }
  split; [exact Hf |]. destruct Hf as [f Hf].
  destruct (dict_Fset_shares 1 f Samples.heap0 Hf) as [Hset _].
  destruct (Hset 3%positive) as (h' & Hrun & Hget & _).
  exists h'. split; assumption.
Defined.



(** ** Calling a function *)

Section CallFacts.
Variable VmEvalCodeEx :
  loc -> Dict -> Dict -> Tuple -> Dict -> Tuple -> option Dict -> Tuple -> M Object.

(** X18: a call hands the evaluator the code, the globals, the defaults,
    the keyword defaults and the closure of the function, the arguments
    as given, and a new, empty map for the locals; no existing map is
    touched on the way, and the outcome of the evaluator is the outcome
    of the call. *)
Theorem M__call___fresh_locals (fp : loc) (f : Function.t) (args : Tuple)
    (kwargs : Dict) (h : Heap) :
  functions h !! fp = Some f ->
  exists (locals : Dict) (h1 : Heap),
    M__call__ VmEvalCodeEx fp args kwargs h =
      VmEvalCodeEx (Function.Code f) (Function.Globals f) locals args kwargs
        (Function.Defaults f) (Function.KwDefaults f) (Function.Closure f) h1 /\
    dicts h !! locals = None /\
    dicts h1 !! locals = Some ∅ /\
    (forall d, d ≠ locals -> dicts h1 !! d = dicts h !! d) /\
    (is_Some (dicts h !! Function.Globals f) -> locals ≠ Function.Globals f) /\
    (is_Some (dicts h !! kwargs) -> locals ≠ kwargs) /\
    codes h1 = codes h /\ functions h1 = functions h.
Proof.
  intros Hf. eexists _, _.
  unfold M__call__, mbind, M_bind, bind, reading, deref_Function, NewDict, make_Dict.
  rewrite Hf. split; [reflexivity |]. simpl.
  pose proof (make_Dict_fresh h) as Hfr.
  split; [exact Hfr |]. split; [apply lookup_insert_eq |].
  split; [intros d Hd; apply lookup_insert_ne; congruence |].
  split; [intros [m Hm] E; rewrite E in Hfr; congruence |].
  split; [intros [m Hm] E; rewrite E in Hfr; congruence |].
  split; reflexivity.
Qed.
End CallFacts.

Lemma M__call___fresh_locals_witness :
  is_Some (functions Samples.heap0 !! 1%positive) /\
  (M__call__ SampleCall.VmEvalCodeEx 1 [] 2 Samples.heap0).1 = Ok (Int 1) /\
  exists (locals : Dict) (h1 : Heap),
    M__call__ SampleCall.VmEvalCodeEx 1 [] 2 Samples.heap0 =
      SampleCall.VmEvalCodeEx 1 3 locals [] 2 [] None [] h1 /\
    dicts Samples.heap0 !! locals = None.
Proof.
  assert (Hf : is_Some (functions Samples.heap0 !! 1%positive)).
  { apply (bool_decide_unpack _). vm_compute. exact I. }
  split; [exact Hf |]. split; [vm_compute; reflexivity |].
  destruct Hf as [f Hf].
  destruct (M__call___fresh_locals SampleCall.VmEvalCodeEx 1 f [] 2 Samples.heap0 Hf)
    as (locals & h1 & Hrun & Hfresh & _).
  exists locals, h1. split; [| exact Hfresh].
  rewrite Hrun. vm_compute in Hf. inversion Hf. reflexivity.
Defined.

(** ** More on the eval/exec dispatcher *)

Lemma TrimLeft_idempotent (s cutset : string) :
  TrimLeft (TrimLeft s cutset) cutset = TrimLeft s cutset.
Proof.
  induction s as [|c s IH]; [reflexivity |].
  simpl. destruct (in_cutset c cutset) eqn:Hc; [exact IH |].
  simpl. rewrite Hc. reflexivity.
Qed.

Section DispatcherMore.
Variable UnpackTuple :
  Tuple -> Dict -> string -> Z -> Z -> list Object -> Heap -> result (list Object).
Variable Compile : string -> string -> string -> Z -> bool -> M Object.
Variable EvalCode : loc -> Dict -> Dict -> M Object.

(** X19: a call fails before anything is written when the unpacking
    fails, whose error is passed on as it is, when the globals given are
    not a Dict, or when the locals given are not a Dict; the globals are
    looked at first, and in none of these cases do they receive the
    builtins. *)
Theorem early_failures (self : Object) (args : Tuple)
    (kwargs currentLocals currentGlobals builtins : Dict) (mode : string) (h : Heap) :
  (forall e,
     UnpackTuple args kwargs mode 1 3 [Nil; None_; None_] h = Raise e ->
     builtinEvalOrExec UnpackTuple Compile EvalCode self args kwargs currentLocals
       currentGlobals builtins mode h = (Raise e, h)) /\
  (forall cmd g l,
     UnpackTuple args kwargs mode 1 3 [Nil; None_; None_] h = Ok [cmd; g; l] ->
     g ≠ None_ -> as_Dict g = None ->
     builtinEvalOrExec UnpackTuple Compile EvalCode self args kwargs currentLocals
       currentGlobals builtins mode h =
     (Raise (ExceptionNewf TypeError "globals must be a dict" []), h)) /\
  (forall cmd g l,
     UnpackTuple args kwargs mode 1 3 [Nil; None_; None_] h = Ok [cmd; g; l] ->
     (g = None_ \/ is_Some (as_Dict g)) ->
     l ≠ None_ -> as_Dict l = None ->
     builtinEvalOrExec UnpackTuple Compile EvalCode self args kwargs currentLocals
       currentGlobals builtins mode h =
     (Raise (ExceptionNewf TypeError "locals must be a dict" []), h)).
Proof.
  unfold builtinEvalOrExec, mbind, M_bind, bind, reading.
  split; [| split].
  - intros e ->. reflexivity.
  - intros cmd g l -> Hg Hd.
    rewrite (decide_False (P := g = None_)) by exact Hg.
    destruct (decide (l = None_)); unfold DictCheck, DictCheckExact;
      cbn beta iota; destruct (as_Dict g); try discriminate Hd; reflexivity.
  - intros cmd g l -> Hg Hl Hd.
    destruct (decide (l = None_)) as [? | _]; [contradiction |].
    unfold DictCheck, DictCheckExact.
    destruct Hg as [-> | [G HG]].
    + rewrite decide_True by reflexivity. cbn beta iota. cbn [as_Dict].
      destruct (as_Dict l); [discriminate Hd | reflexivity].
    + destruct (decide (g = None_)) as [-> | _]; [discriminate |].
      cbn beta iota. destruct (as_Dict l); [discriminate Hd |].
      destruct (as_Dict g); [reflexivity | discriminate HG].
Qed.

(** X20: of a source that is text or bytes only the text counts, and of
    the text only what follows its leading blanks and tabs: two calls
    that differ in the source alone, with texts that are equal once
    stripped, have the same outcome. *)
Theorem source_normalised (self : Object) (args args' : Tuple)
    (kwargs kwargs' currentLocals currentGlobals builtins : Dict) (mode : string)
    (h : Heap) (cmd cmd' g l : Object) (s s' : string) :
  UnpackTuple args kwargs mode 1 3 [Nil; None_; None_] h = Ok [cmd; g; l] ->
  UnpackTuple args' kwargs' mode 1 3 [Nil; None_; None_] h = Ok [cmd'; g; l] ->
  source_text cmd = Some s -> source_text cmd' = Some s' ->
  TrimLeft s blank_or_tab = TrimLeft s' blank_or_tab ->
  builtinEvalOrExec UnpackTuple Compile EvalCode self args kwargs currentLocals
    currentGlobals builtins mode h =
  builtinEvalOrExec UnpackTuple Compile EvalCode self args' kwargs' currentLocals
    currentGlobals builtins mode h.
Proof.
  intros HU HU' Hs Hs' Htrim.
  unfold builtinEvalOrExec, mbind, M_bind, bind, reading. rewrite HU, HU'.
  destruct cmd; try discriminate Hs; destruct cmd'; try discriminate Hs';
    cbn [source_text] in Hs, Hs'; simplify_eq;
    cbn beta iota; unfold mret, M_ret, ret; cbn beta iota; rewrite Htrim; reflexivity.
Qed.
End DispatcherMore.

Section DispatcherOutcomes.
Variable UnpackTuple :
  Tuple -> Dict -> string -> Z -> Z -> list Object -> Heap -> result (list Object).
Variable Compile : string -> string -> string -> Z -> bool -> M Object.

(** What a call that fails with an evaluator that never fails does, it
    does with any evaluator. *)
Lemma dispatch_failure_independent (EvalCode' : loc -> Dict -> Dict -> M Object)
    (self : Object) (args : Tuple)
    (kwargs currentLocals currentGlobals builtins : Dict) (mode : string)
    (h h' : Heap) (r : result Object) :
  builtinEvalOrExec UnpackTuple Compile (fun _ _ _ => mret None_) self args kwargs
    currentLocals currentGlobals builtins mode h = (r, h') ->
  (forall v, r ≠ Ok v) ->
  builtinEvalOrExec UnpackTuple Compile EvalCode' self args kwargs
    currentLocals currentGlobals builtins mode h = (r, h').
Proof.
  unfold builtinEvalOrExec, mbind, M_bind, bind, mret, M_ret, ret, reading,
    raise, panic.
  intros H Hr.
  repeat (case_match; simplify_eq; try discriminate);
    try reflexivity; try (exfalso; eapply Hr; reflexivity).
Qed.
(** X21: a call either fails before the evaluator is reached, with an
    outcome that is the same whatever the evaluator is, or it settles on
    its namespaces, resolves its source to a unit without free variables
    and ends with the one run of the evaluator on them, whose outcome is
    the outcome of the call. *)
Theorem dispatch_outcomes (self : Object) (args : Tuple)
    (kwargs currentLocals currentGlobals builtins : Dict) (mode : string) (h : Heap) :
  (exists (cmd : Object) (G L : Dict) (p : loc) (h2 : Heap) (co : Code.t),
     settles UnpackTuple args kwargs currentLocals currentGlobals mode h cmd G L /\
     resolves Compile mode cmd (inject_builtins builtins G h) p h2 /\
     codes h2 !! p = Some co /\ Code.GetNumFree co = 0 /\
     forall EvalCode : loc -> Dict -> Dict -> M Object,
       builtinEvalOrExec UnpackTuple Compile EvalCode self args kwargs currentLocals
         currentGlobals builtins mode h = EvalCode p G L h2) \/
  (exists (r : result Object) (h' : Heap),
     (forall v, r ≠ Ok v) /\
     forall EvalCode : loc -> Dict -> Dict -> M Object,
       builtinEvalOrExec UnpackTuple Compile EvalCode self args kwargs currentLocals
         currentGlobals builtins mode h = (r, h')).
Proof.
  destruct (builtinEvalOrExec UnpackTuple Compile (fun _ _ _ => mret None_) self args
              kwargs currentLocals currentGlobals builtins mode h)
    as [[v|e|] h'] eqn:Hrun.
  - left.
    destruct (dispatch_success UnpackTuple Compile _ self args kwargs currentLocals
                currentGlobals builtins mode h h' v Hrun)
      as (cmd & G & L & p & h2 & co & Hs & Hres & Hco & Hfree & _).
    exists cmd, G, L, p, h2, co. repeat (split; [assumption |]).
    intros EvalCode.
    exact (settled_closed_unit UnpackTuple Compile EvalCode self args kwargs
             currentLocals currentGlobals builtins mode h cmd G L p h2 co
             Hs Hres Hco Hfree).
  - right. exists (Raise e), h'. split; [discriminate |]. intros EvalCode.
    apply dispatch_failure_independent; [exact Hrun | discriminate].
  - right. exists Panic, h'. split; [discriminate |]. intros EvalCode.
    apply dispatch_failure_independent; [exact Hrun | discriminate].
Qed.

(** X22: the compiler is given the stripped text, the file name
    [<string>] and the mode of the call, on a store in which the globals
    hold the builtins.  Its error is the error of the call, whatever the
    evaluator is; when it returns something that is no code unit, the
    call panics. *)
Theorem compile_failures (self : Object) (args : Tuple)
    (kwargs currentLocals currentGlobals builtins : Dict) (mode : string)
    (h : Heap) (cmd : Object) (G L : Dict) (s : string) :
  settles UnpackTuple args kwargs currentLocals currentGlobals mode h cmd G L ->
  source_text cmd = Some s ->
  (forall e h2,
     Compile (TrimLeft s blank_or_tab) "<string>" mode 0 true
       (inject_builtins builtins G h) = (Raise e, h2) ->
     forall EvalCode : loc -> Dict -> Dict -> M Object,
       builtinEvalOrExec UnpackTuple Compile EvalCode self args kwargs currentLocals
         currentGlobals builtins mode h = (Raise e, h2)) /\
  (forall obj h2,
     Compile (TrimLeft s blank_or_tab) "<string>" mode 0 true
       (inject_builtins builtins G h) = (Ok obj, h2) ->
     as_Code obj = None ->
     forall EvalCode : loc -> Dict -> Dict -> M Object,
       builtinEvalOrExec UnpackTuple Compile EvalCode self args kwargs currentLocals
         currentGlobals builtins mode h = (Panic, h2)).
Proof.
  intros (g & l & HU & Hns & HG) Hs. split.
  - intros e h2 Hc EvalCode.
    settle_call HU Hns HG; destruct cmd; try discriminate Hs;
      cbn [source_text] in Hs; simplify_eq;
      unfold mbind, M_bind, bind, mret, M_ret, ret; cbn beta iota;
      rewrite Hc; reflexivity.
  - intros obj h2 Hc Hobj EvalCode.
    settle_call HU Hns HG; destruct cmd; try discriminate Hs;
      cbn [source_text] in Hs; simplify_eq;
      unfold mbind, M_bind, bind, mret, M_ret, ret; cbn beta iota;
      rewrite Hc; cbn beta iota; rewrite Hobj; reflexivity.
Qed.
End DispatcherOutcomes.

Lemma early_failures_witness :
  SampleVm.UnpackTuple [CodeRef 1; Int 0; Int 1] 2 "eval" 1 3 [Nil; None_; None_]
    Samples.heap0 = Ok [CodeRef 1; Int 0; Int 1] /\
  Int 0 ≠ None_ /\ as_Dict (Int 0) = None /\
  builtinEvalOrExec SampleVm.UnpackTuple SampleVm.Compile SampleVm.EvalCode None_
    [CodeRef 1; Int 0; Int 1] 2 2 3 1 "eval" Samples.heap0
  = (Raise (ExceptionNewf TypeError "globals must be a dict" []), Samples.heap0).
Proof.
  assert (HU : SampleVm.UnpackTuple [CodeRef 1; Int 0; Int 1] 2 "eval" 1 3
                 [Nil; None_; None_] Samples.heap0 = Ok [CodeRef 1; Int 0; Int 1])
    by reflexivity.
  assert (Hg : Int 0 ≠ None_) by discriminate.
  split; [exact HU |]. split; [exact Hg |]. split; [reflexivity |].
  destruct (early_failures SampleVm.UnpackTuple SampleVm.Compile SampleVm.EvalCode
              None_ [CodeRef 1; Int 0; Int 1] 2 2 3 1 "eval" Samples.heap0)
    as (_ & Hglobals & _).
  exact (Hglobals (CodeRef 1) (Int 0) (Int 1) HU Hg eq_refl).
Defined.

Lemma source_normalised_witness :
  let spaced := String.String " " (String.String "009" "x = 1") in
  SampleVm.UnpackTuple [String spaced] 2 "exec" 1 3 [Nil; None_; None_] Samples.heap0
    = Ok [String spaced; None_; None_] /\
  SampleVm.UnpackTuple [Bytes (list_ascii_of_string "x = 1")] 2 "exec" 1 3
    [Nil; None_; None_] Samples.heap0
    = Ok [Bytes (list_ascii_of_string "x = 1"); None_; None_] /\
  TrimLeft spaced blank_or_tab = TrimLeft "x = 1" blank_or_tab /\
  builtinEvalOrExec SampleVm.UnpackTuple SampleVm.Compile SampleVm.EvalCode None_
    [String spaced] 2 2 3 1 "exec" Samples.heap0
  = builtinEvalOrExec SampleVm.UnpackTuple SampleVm.Compile SampleVm.EvalCode None_
      [Bytes (list_ascii_of_string "x = 1")] 2 2 3 1 "exec" Samples.heap0.
Proof.
  intros spaced.
  split; [reflexivity |]. split; [reflexivity |]. split; [reflexivity |].
  apply (source_normalised SampleVm.UnpackTuple SampleVm.Compile SampleVm.EvalCode
           None_ [String spaced] [Bytes (list_ascii_of_string "x = 1")] 2 2 2 3 1
           "exec" Samples.heap0 (String spaced) (Bytes (list_ascii_of_string "x = 1"))
           None_ None_ spaced "x = 1"); reflexivity.
Defined.

Lemma compile_failures_witness :
  let h1 := inject_builtins 1 3 Samples.heap0 in
  settles SampleVm.UnpackTuple [String "  "] 2 2 3 "eval" Samples.heap0 (String "  ") 3 2 /\
  source_text (String "  ") = Some "  " /\
  SampleSyntax.Compile (TrimLeft "  " blank_or_tab) "<string>" "eval" 0 true h1
  = (Raise (ExceptionNewf (OtherError "SyntaxError") "unexpected EOF while parsing" []),
     h1) /\
  builtinEvalOrExec SampleVm.UnpackTuple SampleSyntax.Compile SampleVm.EvalCode None_
    [String "  "] 2 2 3 1 "eval" Samples.heap0
  = (Raise (ExceptionNewf (OtherError "SyntaxError") "unexpected EOF while parsing" []),
     h1).
Proof.
  intros h1.
  assert (Hs : settles SampleVm.UnpackTuple [String "  "] 2 2 3 "eval" Samples.heap0
                 (String "  ") 3 2).
  { exists None_, None_. split; [reflexivity |]. split; [constructor |].
    apply (bool_decide_unpack _). vm_compute. exact I. }
  assert (Hc : SampleSyntax.Compile (TrimLeft "  " blank_or_tab) "<string>" "eval" 0
                 true h1
               = (Raise (ExceptionNewf (OtherError "SyntaxError")
                           "unexpected EOF while parsing" []), h1)) by reflexivity.
  split; [exact Hs |]. split; [reflexivity |]. split; [exact Hc |].
  destruct (compile_failures SampleVm.UnpackTuple SampleSyntax.Compile None_
              [String "  "] 2 2 3 1 "eval" Samples.heap0 (String "  ") 3 2 "  "
              Hs eq_refl) as [Hraise _].
  exact (Hraise _ _ Hc SampleVm.EvalCode).
Defined.

(** ** Reads agree; new Dicts *)

(** X23: [M__contains__] answers [True] exactly when [M__getitem__]
    succeeds, which is when the key is textual and present, and the value
    read is the one stored; [M__contains__] answers [False] exactly for a
    textual key that is absent.  Neither of them panics. *)
Theorem contains_iff_getitem (d : Dict) (k : Object) (h : Heap) :
  (M__contains__ d k h = Ok True_ <-> exists v, M__getitem__ d k h = Ok v) /\
  (forall v, M__getitem__ d k h = Ok v <->
             (exists s, k = String s) /\ contents h d !! k = Some v) /\
  (M__contains__ d k h = Ok False_ <->
   (exists s, k = String s) /\ contents h d !! k = None) /\
  M__getitem__ d k h ≠ Panic /\ M__contains__ d k h ≠ Panic.
Proof.
  unfold M__contains__, M__getitem__.
  destruct (as_String k) as [s|] eqn:Hk.
  - assert (k = String s) as -> by (destruct k; inversion Hk; reflexivity).
    rewrite map_index_String.
    destruct (contents h d !! String s) as [w|] eqn:Hw.
    + split; [split; eauto |].
      split; [intros v; split; [intros [= <-]; eauto | intros [_ [= <-]]; reflexivity] |].
      split; [split; [discriminate | intros [_ ?]; discriminate] |].
      split; discriminate.
    + split; [split; [discriminate | intros [v ?]; discriminate] |].
      split; [intros v; split; [discriminate | intros [_ ?]; discriminate] |].
      split; [split; eauto |].
      split; discriminate.
  - assert (Hno : ~ exists s, k = String s).
    { intros [s ->]. discriminate Hk. }
    split; [split; [discriminate | intros [v ?]; discriminate] |].
    split; [intros v; split; [discriminate | intros [? _]; contradiction] |].
    split; [split; [discriminate | intros [? _]; contradiction] |].
    split; discriminate.
Qed.

(** X24: [NewDict] and [NewDictSized], whatever the size asked for, make
    empty maps with storage of their own: two of them are different maps,
    equal under any equality dispatch, and a write to one leaves the other
    empty. *)
Theorem NewDict_twice (Eq : Object -> Object -> Heap -> result Object) (n : Z)
    (h : Heap) :
  exists (d1 d2 : Dict) (h1 h2 : Heap),
    NewDict h = (Ok d1, h1) /\
    NewDictSized n h1 = (Ok d2, h2) /\
    dicts h !! d1 = None /\ dicts h !! d2 = None /\
    d1 ≠ d2 /\
    map_len h2 d1 = 0 /\ map_len h2 d2 = 0 /\
    range_of h2 d1 [] /\
    M__eq__ Eq [] d1 (DictRef d2) h2 = Ok True_ /\
    (forall k v, contents (M__setitem__ d1 k v h2).2 d2 = ∅).
Proof.
  set (d1 := fresh (dom (dicts h))).
  set (h1 := set_dicts h (<[d1 := ∅]> (dicts h))).
  set (d2 := fresh (dom (dicts h1))).
  set (h2 := set_dicts h1 (<[d2 := ∅]> (dicts h1))).
  assert (Hf1 : dicts h !! d1 = None) by apply make_Dict_fresh.
  assert (Hf2 : dicts h1 !! d2 = None) by apply make_Dict_fresh.
  assert (Hne : d1 ≠ d2).
  { intros E. rewrite <- E in Hf2. unfold h1 in Hf2. simpl in Hf2.
    rewrite lookup_insert_eq in Hf2. discriminate. }
  assert (Hc1 : contents h2 d1 = ∅).
  { unfold h2. rewrite contents_set_ne by (intros E; apply Hne; symmetry; exact E).
    unfold h1. apply contents_set_eq. }
  assert (Hc2 : contents h2 d2 = ∅) by apply contents_set_eq.
  exists d1, d2, h1, h2.
  split; [reflexivity |]. split; [reflexivity |]. split; [exact Hf1 |].
  split.
  { unfold h1 in Hf2. simpl in Hf2.
    rewrite lookup_insert_ne in Hf2 by exact Hne. exact Hf2. }
  split; [exact Hne |].
  unfold map_len, range_of. rewrite Hc1, Hc2.
  split; [apply map_size_empty |]. split; [apply map_size_empty |].
  split; [rewrite map_to_list_empty; reflexivity |].
  split.
  - unfold M__eq__. cbn [as_Dict]. unfold map_len. rewrite Hc1, Hc2.
    destruct (decide (size (∅ : gmap Object Object) ≠ size (∅ : gmap Object Object)));
      [contradiction | reflexivity].
  - intros k v.
    destruct (M__setitem__ d1 k v h2) as [r h3] eqn:Hset. simpl.
    assert (Hfr : dicts h3 !! d2 = dicts h2 !! d2).
    { unfold M__setitem__, mbind, M_bind, bind in Hset.
      destruct (map_assign d1 k v h2) as [r' h3'] eqn:Hm.
      pose proof (map_assign_frame d1 d2 k v h2 h3' r' Hm Hne) as Hf.
      destruct r'; inversion Hset; subst; exact Hf. }
    unfold contents in *. rewrite Hfr. exact Hc2.
Qed.
